(** * The DESY HTCondor example framework of law: a shallow embedding

    The embedded program is [examples/htcondor_at_desy/analysis/framework.py]:
    the base class [Task] (a forced [version] parameter, [store_parts],
    [local_path]) and the workflow mixin [HTCondorWorkflow] (the parameter
    [max_runtime], [htcondor_output_directory], [htcondor_job_config]).

    Python objects that the code mutates live in an explicit heap, because
    [htcondor_job_config] updates the dictionary and the list that hang off
    the config object it is given and hands that same object back. *)

From Stdlib Require Import Ascii String ZArith QArith.
From stdpp Require Import gmap strings list fin_maps.

Local Open Scope string_scope.
Local Open Scope list_scope.
Local Open Scope Z_scope.

(** ** Python values, objects and the heap *)

Abbreviation loc := positive.

(** The values that occur in the file: [None], strings, integers, the
    2-tuples stored in [custom_content], and references to mutable objects. *)
Inductive pyval : Type :=
  | VNone
  | VStr (s : string)
  | VInt (z : Z)
  | VTuple (a b : pyval)
  | VRef (l : loc).

(** Mutable objects: a [dict] with string keys, a [list], and an instance
    with its attribute table. *)
Inductive pyobj : Type :=
  | ODict (d : gmap string pyval)
  | OList (l : list pyval)
  | OInst (attrs : gmap string pyval).

Abbreviation heap := (gmap loc pyobj).

Inductive exn : Type :=
  | AttributeError
  | TypeError
  | MissingParameterException.

Inductive result (A : Type) : Type :=
  | Ok (a : A)
  | Raise (e : exn).
Arguments Ok {A} a.
Arguments Raise {A} e.

(** ** Statements: a state monad over the heap with exceptions

    A raised exception keeps the heap as it was at the raise, as in Python:
    mutations done before the failing statement are not rolled back. *)
Module Py.

Definition M (A : Type) : Type := heap -> result A * heap.

Definition ret {A} (a : A) : M A := fun h => (Ok a, h).

Definition raise {A} (e : exn) : M A := fun h => (Raise e, h).

Definition bind {A B} (m : M A) (k : A -> M B) : M B :=
  fun h => match m h with
           | (Ok a, h') => k a h'
           | (Raise e, h') => (Raise e, h')
           end.

(** [o.name]. Which exception a missing attribute raises is up to the class
    of the object; the model takes [AttributeError], that of a plain object.
    The properties that name the exception of a failing call are about a
    [custom_content] that is no list, where it is [append] that fails. *)
Definition getattr (o : pyval) (name : string) : M pyval :=
  fun h => match o with
           | VRef l =>
               match h !! l with
               | Some (OInst attrs) =>
                   match attrs !! name with
                   | Some v => (Ok v, h)
                   | None => (Raise AttributeError, h)
                   end
               | _ => (Raise AttributeError, h)
               end
           | _ => (Raise AttributeError, h)
           end.

(** [o[k] = v]; only a dict supports item assignment with a string key. *)
Definition setitem (o : pyval) (k : string) (v : pyval) : M unit :=
  fun h => match o with
           | VRef l =>
               match h !! l with
               | Some (ODict d) => (Ok tt, <[l := ODict (<[k := v]> d)]> h)
               | _ => (Raise TypeError, h)
               end
           | _ => (Raise TypeError, h)
           end.

(** [o.append(x)]; of the objects modelled only a list has [append]. *)
Definition append (o : pyval) (x : pyval) : M unit :=
  fun h => match o with
           | VRef l =>
               match h !! l with
               | Some (OList xs) => (Ok tt, <[l := OList (xs ++ [x])%list]> h)
               | _ => (Raise AttributeError, h)
               end
           | _ => (Raise AttributeError, h)
           end.

End Py.

#[export] Instance M_ret : MRet Py.M := @Py.ret.
#[export] Instance M_bind : MBind Py.M := fun A B k m => Py.bind m k.

(** ** The [os] module: the process environment and POSIX path joining *)
Module os.

(** [os.getenv(name)]: the value, or [None] when the variable is unset. *)
Definition getenv (environ : gmap string string) (name : string) : pyval :=
  match environ !! name with
  | Some s => VStr s
  | None => VNone
  end.

Definition sep : string := "/".

(** [b.startswith(sep)] *)
Definition startswith_sep (b : string) : bool :=
  match b with
  | String "/"%char _ => true
  | _ => false
  end.

(** [path.endswith(sep)] *)
Fixpoint endswith_sep (path : string) : bool :=
  match path with
  | EmptyString => false
  | String c EmptyString => Ascii.eqb c "/"%char
  | String _ rest => endswith_sep rest
  end.

Definition is_empty (s : string) : bool :=
  match s with
  | EmptyString => true
  | _ => false
  end.

(** One round of the loop of [posixpath.join]. *)
Definition join_step (path b : string) : string :=
  if startswith_sep b then b
  else if is_empty path || endswith_sep path then path +:+ b
  else path +:+ sep +:+ b.

(** [os.fspath] on the values modelled: anything but a string is refused. *)
Definition fspath (v : pyval) : result string :=
  match v with
  | VStr s => Ok s
  | _ => Raise TypeError
  end.

Fixpoint join_loop (path : string) (p : list pyval) : result string :=
  match p with
  | [] => Ok path
  | v :: p' =>
      match fspath v with
      | Ok b => join_loop (join_step path b) p'
      | Raise e => Raise e
      end
  end.

(** [os.path.join] applied to the unpacked [parts]; the first positional
    argument is required. *)
Definition path_join (parts : list pyval) : result string :=
  match parts with
  | [] => Raise TypeError
  | a :: p =>
      match fspath a with
      | Ok a' => join_loop a' p
      | Raise e => Raise e
      end
  end.

(** [os.path.isabs] *)
Definition path_isabs (s : string) : bool := startswith_sep s.

End os.

(** ** class Task *)

(** An instance: the name of its class and the value of the [version]
    parameter. *)
Record Task : Type := {
  cls_name : string;
  version : string
}.

Definition store_parts (self : Task) : string * string :=
  (cls_name self, version self).

(** A Python tuple of strings laid out as the list of its items, which is
    what tuple concatenation and argument unpacking see. *)
Definition tuple2_items (t : string * string) : list pyval :=
  [VStr (fst t); VStr (snd t)].

Definition local_path (environ : gmap string string) (self : Task)
    (path : list pyval) : result string :=
  let parts := ([os.getenv environ "ANALYSIS_DATA_PATH"]
                  ++ tuple2_items (store_parts self) ++ path)%list in
  os.path_join parts.

Record LocalFileTarget : Type := { file_target_path : string }.

Definition local_target (environ : gmap string string) (self : Task)
    (path : list pyval) : result LocalFileTarget :=
  match local_path environ self path with
  | Ok p => Ok {| file_target_path := p |}
  | Raise e => Raise e
  end.

(** ** class HTCondorWorkflow *)

(** An instance of a task class that derives from [Task] and mixes in
    [HTCondorWorkflow] (the mixin calls [self.local_path], which [Task]
    provides). [max_runtime] is a duration in hours. *)
Record HTCondorWorkflow : Type := {
  task : Task;
  max_runtime : Q
}.

(** ** Parameters and instantiation

    The file declares the parameters. The instances are made by the
    constructor of the framework (luigi's task metaclass, reached through
    [law.Task] and [law.htcondor.HTCondorWorkflow]), which is not among the
    sources. The constructor is therefore a parameter of the statements about
    construction: they hold for every constructor that treats the declared
    parameters as [resolves_version] and [resolves_parameters] say, whatever
    else it checks and whatever other failures it has. *)

(** [version = luigi.Parameter()]: no default. *)
Definition version_default : option string := None.

(** [max_runtime = law.DurationParameter(default=3.0, unit="h", ...)]: three
    hours. The declaration names no validation. *)
Definition max_runtime_default : option Q := Some 3%Q.

(** The value an instance has for a parameter: the supplied one, else the
    declared default; with neither the parameter is missing. *)
Definition resolve {A : Type} (supplied default : option A) : result A :=
  match supplied, default with
  | Some v, _ => Ok v
  | None, Some d => Ok d
  | None, None => Raise MissingParameterException
  end.

(** A constructor takes the name of the class and the parameter values that
    were supplied. *)
Abbreviation task_constructor := (string -> option string -> result Task).
Abbreviation workflow_constructor :=
  (string -> option string -> option Q -> result HTCondorWorkflow).



(** Stand-ins for the framework's constructor on a class that it
    instantiates: they resolve the declared parameters and check nothing
    else. They are the concrete constructors of the examples. *)
Definition declared_task_new : task_constructor :=
  fun cls arg_version =>
    match resolve arg_version version_default with
    | Ok v => Ok {| cls_name := cls; version := v |}
    | Raise e => Raise e
    end.

Definition declared_new : workflow_constructor :=
  fun cls arg_version arg_max_runtime =>
    match declared_task_new cls arg_version with
    | Ok t =>
        match resolve arg_max_runtime max_runtime_default with
        | Ok m => Ok {| task := t; max_runtime := m |}
        | Raise e => Raise e
        end
    | Raise e => Raise e
    end.

(** [law.LocalDirectoryTarget] is not part of the file; the model keeps the
    path string the constructor is called with. *)
Record LocalDirectoryTarget : Type := { target_path : string }.

Definition htcondor_output_directory (environ : gmap string string)
    (self : HTCondorWorkflow) : result LocalDirectoryTarget :=
  match local_path environ (task self) [] with
  | Ok p => Ok {| target_path := p |}
  | Raise e => Raise e
  end.

(** The double quote character, for string literals that contain one. *)
Definition dquote : string := String "034"%char EmptyString.

Definition htcondor_job_config (environ : gmap string string)
    (self : HTCondorWorkflow) (config : pyval) (job_num : Z)
    (branches : list Z) : Py.M pyval :=
  rv ← Py.getattr config "render_variables";
  Py.setitem rv "analysis_path" (os.getenv environ "ANALYSIS_PATH");;
  cc ← Py.getattr config "custom_content";
  Py.append cc (VTuple (VStr "requirements")
                  (VStr ("(OpSysAndVer =?= " +:+ dquote +:+ "CentOS7" +:+ dquote +:+ ")")));;
  (* the "+MaxRuntime" append sits inside a string literal in the source
     and is never executed *)
  cc ← Py.getattr config "custom_content";
  Py.append cc (VTuple (VStr "getenv") (VStr "true"));;
  (* the "log" append is commented out in the source *)
  cc ← Py.getattr config "custom_content";
  Py.append cc (VTuple (VStr "on_exit_hold")
                  (VStr "(ExitBySignal == True) || (ExitStatus != 0) || (ExitCode != 0)"));;
  mret config.

(** ** Reading a config object off the heap *)

(** The location an attribute of [config] refers to. *)
Definition attr_loc (h : heap) (config : pyval) (name : string) : option loc :=
  match Py.getattr config name h with
  | (Ok (VRef l), _) => Some l
  | _ => None
  end.

(** The contents of [config.render_variables] (a dict) and of
    [config.custom_content] (a list), when the config has both. *)
Record config_view : Type := {
  render_variables : gmap string pyval;
  custom_content : list pyval
}.

Definition read_config (h : heap) (config : pyval) : option config_view :=
  match attr_loc h config "render_variables", attr_loc h config "custom_content" with
  | Some rv, Some cc =>
      match h !! rv, h !! cc with
      | Some (ODict d), Some (OList l) =>
          Some {| render_variables := d; custom_content := l |}
      | _, _ => None
      end
  | _, _ => None
  end.

(** The three directives, named for the statements below. *)
Definition requirements_directive : pyval :=
  VTuple (VStr "requirements")
    (VStr ("(OpSysAndVer =?= " +:+ dquote +:+ "CentOS7" +:+ dquote +:+ ")")).
Definition getenv_directive : pyval := VTuple (VStr "getenv") (VStr "true").
Definition on_exit_hold_predicate : string :=
  "(ExitBySignal == True) || (ExitStatus != 0) || (ExitCode != 0)".
Definition on_exit_hold_directive : pyval :=
  VTuple (VStr "on_exit_hold") (VStr on_exit_hold_predicate).

Definition policy_directives : list pyval :=
  [requirements_directive; getenv_directive; on_exit_hold_directive].

(** [config] is an instance at [c] whose [render_variables] is the dict [d]
    at [rv] and whose [custom_content] is the list [l] at [cc]. *)
Definition is_config (h : heap) (c rv cc : loc) (attrs : gmap string pyval)
    (d : gmap string pyval) (l : list pyval) : Prop :=
  h !! c = Some (OInst attrs) ∧
  attrs !! "render_variables" = Some (VRef rv) ∧
  h !! rv = Some (ODict d) ∧
  attrs !! "custom_content" = Some (VRef cc) ∧
  h !! cc = Some (OList l).

(** The heap a successful call leaves behind. *)
Definition rendered_heap (environ : gmap string string) (h : heap)
    (rv cc : loc) (d : gmap string pyval) (l : list pyval) : heap :=
  <[cc := OList (l ++ policy_directives)]>
    (<[rv := ODict (<["analysis_path" := os.getenv environ "ANALYSIS_PATH"]> d)]> h).

(** ** The expression language of the directive values

    HTCondor reads the value of [on_exit_hold] as a ClassAd expression and
    evaluates it against the job ad when the job exits. The fragment below
    covers what the strings of this file are made of: parentheses, attribute
    names, integer and boolean literals, [==], [!=], [&&] and [||], with the
    three-valued (defined / undefined / error) evaluation of ClassAds. *)
Module ClassAd.

Inductive token : Type :=
  | TLParen | TRParen | TEq | TNe | TOr | TAnd
  | TWord (w : string).

Definition in_range (c : ascii) (lo hi : N) : bool :=
  let n := N_of_ascii c in (lo <=? n)%N && (n <=? hi)%N.

Definition is_digit (c : ascii) : bool := in_range c 48 57.

Definition is_word_char (c : ascii) : bool :=
  is_digit c || in_range c 65 90 || in_range c 97 122 || Ascii.eqb c "_"%char.

Definition flush (cur : string) (ts : list token) : list token :=
  match cur with
  | EmptyString => ts
  | _ => TWord cur :: ts
  end.

(** The lexer; [cur] is the word being read. An unknown character or half
    an operator is a syntax error. *)
Fixpoint lex (cur : string) (s : string) : option (list token) :=
  match s with
  | EmptyString => Some (flush cur [])
  | String c rest =>
      if is_word_char c then lex (cur +:+ String c EmptyString) rest
      else if Ascii.eqb c " "%char then flush cur <$> lex EmptyString rest
      else if Ascii.eqb c "("%char then (fun ts => flush cur (TLParen :: ts)) <$> lex EmptyString rest
      else if Ascii.eqb c ")"%char then (fun ts => flush cur (TRParen :: ts)) <$> lex EmptyString rest
      else
        match rest with
        | String c' rest' =>
            if Ascii.eqb c "="%char && Ascii.eqb c' "="%char
            then (fun ts => flush cur (TEq :: ts)) <$> lex EmptyString rest'
            else if Ascii.eqb c "!"%char && Ascii.eqb c' "="%char
            then (fun ts => flush cur (TNe :: ts)) <$> lex EmptyString rest'
            else if Ascii.eqb c "|"%char && Ascii.eqb c' "|"%char
            then (fun ts => flush cur (TOr :: ts)) <$> lex EmptyString rest'
            else if Ascii.eqb c "&"%char && Ascii.eqb c' "&"%char
            then (fun ts => flush cur (TAnd :: ts)) <$> lex EmptyString rest'
            else None
        | EmptyString => None
        end
  end.

Inductive expr : Type :=
  | EBool (b : bool)
  | EInt (z : Z)
  | EAttr (name : string)
  | EEq (a b : expr)
  | ENe (a b : expr)
  | EAnd (a b : expr)
  | EOr (a b : expr).

Fixpoint all_digits (s : string) : bool :=
  match s with
  | EmptyString => true
  | String c rest => is_digit c && all_digits rest
  end.

Fixpoint decimal (acc : Z) (s : string) : Z :=
  match s with
  | EmptyString => acc
  | String c rest => decimal (10 * acc + (Z.of_N (N_of_ascii c) - 48)) rest
  end.

Definition word_expr (w : string) : expr :=
  if all_digits w then EInt (decimal 0 w)
  else if String.eqb w "True" || String.eqb w "true" || String.eqb w "TRUE" then EBool true
  else if String.eqb w "False" || String.eqb w "false" || String.eqb w "FALSE" then EBool false
  else EAttr w.

(** Recursive descent, loosest operator first: [||], [&&], comparison,
    atom. Binary operators associate to the left. [fuel] bounds the nesting
    depth; the number of tokens is always enough. *)
Fixpoint parse_or (fuel : nat) (ts : list token) : option (expr * list token) :=
  match fuel with
  | O => None
  | S fuel =>
      let parse_atom (ts : list token) : option (expr * list token) :=
        match ts with
        | TWord w :: ts' => Some (word_expr w, ts')
        | TLParen :: ts' =>
            match parse_or fuel ts' with
            | Some (e, TRParen :: ts'') => Some (e, ts'')
            | _ => None
            end
        | _ => None
        end in
      let parse_cmp (ts : list token) : option (expr * list token) :=
        match parse_atom ts with
        | Some (a, TEq :: ts') =>
            match parse_atom ts' with
            | Some (b, ts'') => Some (EEq a b, ts'')
            | None => None
            end
        | Some (a, TNe :: ts') =>
            match parse_atom ts' with
            | Some (b, ts'') => Some (ENe a b, ts'')
            | None => None
            end
        | r => r
        end in
      let fix and_tail (n : nat) (a : expr) (ts : list token) : option (expr * list token) :=
        match n, ts with
        | S n', TAnd :: ts' =>
            match parse_cmp ts' with
            | Some (b, ts'') => and_tail n' (EAnd a b) ts''
            | None => None
            end
        | _, _ => Some (a, ts)
        end in
      let parse_and (ts : list token) : option (expr * list token) :=
        match parse_cmp ts with
        | Some (a, ts') => and_tail (length ts') a ts'
        | None => None
        end in
      let fix or_tail (n : nat) (a : expr) (ts : list token) : option (expr * list token) :=
        match n, ts with
        | S n', TOr :: ts' =>
            match parse_and ts' with
            | Some (b, ts'') => or_tail n' (EOr a b) ts''
            | None => None
            end
        | _, _ => Some (a, ts)
        end in
      match parse_and ts with
      | Some (a, ts') => or_tail (length ts') a ts'
      | None => None
      end
  end.

Definition parse (s : string) : option expr :=
  match lex EmptyString s with
  | Some ts =>
      match parse_or (S (length ts)) ts with
      | Some (e, []) => Some e
      | _ => None
      end
  | None => None
  end.

Inductive value : Type :=
  | Undefined
  | Error
  | Bool (b : bool)
  | Int (z : Z).

Definition eval_eq (a b : value) : value :=
  match a, b with
  | Error, _ | _, Error => Error
  | Undefined, _ | _, Undefined => Undefined
  | Bool x, Bool y => Bool (Bool.eqb x y)
  | Int x, Int y => Bool (x =? y)
  | _, _ => Error
  end.

Definition eval_not (a : value) : value :=
  match a with
  | Bool x => Bool (negb x)
  | Int _ => Error
  | other => other
  end.

(** [||] is not strict: a true operand decides the result even when the
    other one is undefined. *)
Definition eval_or (a b : value) : value :=
  match a, b with
  | Error, _ | Int _, _ => Error
  | Bool true, _ => Bool true
  | _, Error | _, Int _ => Error
  | _, Bool true => Bool true
  | Bool false, Bool false => Bool false
  | _, _ => Undefined
  end.

Definition eval_and (a b : value) : value :=
  match a, b with
  | Error, _ | Int _, _ => Error
  | Bool false, _ => Bool false
  | _, Error | _, Int _ => Error
  | _, Bool false => Bool false
  | Bool true, Bool true => Bool true
  | _, _ => Undefined
  end.

Fixpoint eval (ad : string -> value) (e : expr) : value :=
  match e with
  | EBool b => Bool b
  | EInt z => Int z
  | EAttr name => ad name
  | EEq a b => eval_eq (eval ad a) (eval ad b)
  | ENe a b => eval_not (eval_eq (eval ad a) (eval ad b))
  | EAnd a b => eval_and (eval ad a) (eval ad b)
  | EOr a b => eval_or (eval ad a) (eval ad b)
  end.

(** Evaluation of an expression given as text; [None] is a syntax error. *)
Definition evaluate (s : string) (ad : string -> value) : option value :=
  eval ad <$> parse s.

End ClassAd.

(** The exit attributes of a job ad. An attribute the scheduler did not
    set is undefined ([ExitCode] after a signal, for one). *)
Record exit_ad : Type := {
  ExitBySignal : option bool;
  ExitStatus : option Z;
  ExitCode : option Z
}.

Definition exit_ad_lookup (ad : exit_ad) (name : string) : ClassAd.value :=
  if String.eqb name "ExitBySignal" then from_option ClassAd.Bool ClassAd.Undefined (ExitBySignal ad)
  else if String.eqb name "ExitStatus" then from_option ClassAd.Int ClassAd.Undefined (ExitStatus ad)
  else if String.eqb name "ExitCode" then from_option ClassAd.Int ClassAd.Undefined (ExitCode ad)
  else ClassAd.Undefined.

(** The exit is by signal, or the exit status or the exit code is nonzero. *)
Definition abnormal_exit (ad : exit_ad) : Prop :=
  ExitBySignal ad = Some true ∨
  (∃ z, ExitStatus ad = Some z ∧ z ≠ 0) ∨
  (∃ z, ExitCode ad = Some z ∧ z ≠ 0).

(** The key of a directive, an entry [(key, value)] of [custom_content]. *)
Definition directive_key (x : pyval) : option string :=
  match x with
  | VTuple (VStr k) _ => Some k
  | _ => None
  end.

Definition has_key (k : string) (x : pyval) : bool :=
  match directive_key x with
  | Some k' => String.eqb k k'
  | None => false
  end.

(** The value in force for a key: the submit file lists the directives in
    order and a later line replaces an earlier one for the same key. *)
Definition directive_in_force (k : string) (l : list pyval) : option pyval :=
  match last (filter (fun x => has_key k x = true) l) with
  | Some (VTuple _ v) => Some v
  | _ => None
  end.

Inductive JobState : Type :=
  | Pending | Running | Held | Completed | Failed | Removed.

Definition terminal (s : JobState) : bool :=
  match s with
  | Completed | Failed | Removed => true
  | _ => false
  end.

(** Modelled from the spec: the transition of a Running job at its exit
    (the supervisor and the scheduler are not among the sources). A job whose
    exit matches the [on_exit_hold] predicate in force goes to Held, any other
    exit completes the job. *)
Definition running_exit (directives : list pyval) (ad : exit_ad) : JobState :=
  match directive_in_force "on_exit_hold" directives with
  | Some (VStr p) =>
      match ClassAd.evaluate p (exit_ad_lookup ad) with
      | Some (ClassAd.Bool true) => Held
      | _ => Completed
      end
  | _ => Completed
  end.

(** A call together with the view of the config it leaves behind. *)
Definition run_view (environ : gmap string string) (self : HTCondorWorkflow)
    (config : pyval) (job_num : Z) (branches : list Z) (h : heap)
    : result pyval * option config_view :=
  let (r, h') := htcondor_job_config environ self config job_num branches h in
  (r, read_config h' config).

Definition sample_attrs : gmap string pyval :=
  {[ "render_variables" := VRef 2;
     "custom_content" := VRef 3;
     "universe" := VStr "vanilla" ]}.

(** A freshly made config: an instance at [1] whose [render_variables] is an
    empty dict at [2] and whose [custom_content] is the list [l] at [3], with
    one further attribute. *)
Definition sample_heap (l : list pyval) : heap :=
  {[ 1%positive := OInst sample_attrs;
     2%positive := ODict ∅;
     3%positive := OList l ]}.

Definition sample_workflow : HTCondorWorkflow :=
  {| task := {| cls_name := "CreateChars"; version := "v1" |};
     max_runtime := 3 |}.

(** A path segment with nothing special about it: not empty, no leading
    and no trailing separator. *)
Definition plain_segment (s : string) : bool :=
  negb (os.is_empty s) && negb (os.startswith_sep s) && negb (os.endswith_sep s).

(** Each segment behind a separator. *)
Fixpoint slashed (segments : list string) : string :=
  match segments with
  | [] => ""
  | b :: rest => os.sep +:+ b +:+ slashed rest
  end.

(** A second config of the same contents elsewhere in another heap: the
    instance at [7], its dict at [8], its list at [9]. *)
Definition sample_heap_alt (l : list pyval) : heap :=
  {[ 7%positive := OInst {[ "render_variables" := VRef 8;
                            "custom_content" := VRef 9 ]};
     8%positive := ODict ∅;
     9%positive := OList l;
     10%positive := OList [VStr "bystander"] ]}.

(** ** Notions for the further properties *)

Definition is_str (v : pyval) : bool :=
  match v with
  | VStr _ => true
  | _ => false
  end.

(** A segment that does not restart the path. *)
Definition relative_segment (s : string) : bool := negb (os.startswith_sep s).

(** No separator anywhere, as in a class name. *)
Fixpoint no_sep (s : string) : bool :=
  match s with
  | EmptyString => true
  | String c rest => negb (Ascii.eqb c "/"%char) && no_sep rest
  end.

(** How many directives of a list carry the key [k]. *)
Definition key_count (k : string) (l : list pyval) : nat :=
  length (filter (fun x => has_key k x = true) l).

Definition policy_key (k : string) : bool :=
  String.eqb k "requirements" || String.eqb k "getenv" || String.eqb k "on_exit_hold".

(** [n] calls in a row, each on the object the call before returned. *)
Fixpoint render_times (environ : gmap string string) (self : HTCondorWorkflow)
    (job_num : Z) (branches : list Z) (n : nat) (config : pyval) : Py.M pyval :=
  match n with
  | O => mret config
  | S n' =>
      c ← htcondor_job_config environ self config job_num branches;
      render_times environ self job_num branches n' c
  end.

(** A config whose [custom_content] is still [None]. *)
Definition none_attrs : gmap string pyval :=
  {[ "render_variables" := VRef 2; "custom_content" := VNone ]}.

Definition sample_heap_none : heap :=
  {[ 1%positive := OInst none_attrs;
     2%positive := ODict ∅ ]}.

(** Two configs, at [1] and at [4], that share the list at [3]; the second
    has a dict of its own at [5]. *)
Definition shared_attrs : gmap string pyval :=
  {[ "render_variables" := VRef 5; "custom_content" := VRef 3 ]}.

Definition sample_heap_shared : heap :=
  {[ 1%positive := OInst sample_attrs;
     2%positive := ODict ∅;
     3%positive := OList [];
     4%positive := OInst shared_attrs;
     5%positive := ODict ∅ ]}.


(** * Properties *)

(** ** Running the statements *)

Section Primitives.
Context (h : heap).

Lemma getattr_ok (c : loc) (attrs : gmap string pyval) (name : string) (v : pyval) :
  h !! c = Some (OInst attrs) → attrs !! name = Some v →
  Py.getattr (VRef c) name h = (Ok v, h).
Proof. intros Hc Ha. unfold Py.getattr. by rewrite Hc, Ha. Qed.

Lemma setitem_ok (l : loc) (d : gmap string pyval) (k : string) (v : pyval) :
  h !! l = Some (ODict d) →
  Py.setitem (VRef l) k v h = (Ok tt, <[l := ODict (<[k := v]> d)]> h).
Proof. intros Hl. unfold Py.setitem. by rewrite Hl. Qed.

Lemma append_ok (l : loc) (xs : list pyval) (x : pyval) :
  h !! l = Some (OList xs) →
  Py.append (VRef l) x h = (Ok tt, <[l := OList (xs ++ [x])]> h).
Proof. intros Hl. unfold Py.append. by rewrite Hl. Qed.

Lemma bind_ok {A B} (m : Py.M A) (k : A → Py.M B) (a : A) (h' : heap) :
  m h = (Ok a, h') → (m ≫= k) h = k a h'.
Proof. intros Hm. unfold mbind, M_bind, Py.bind. by rewrite Hm. Qed.

Lemma bind_raise {A B} (m : Py.M A) (k : A → Py.M B) (e : exn) (h' : heap) :
  m h = (Raise e, h') → (m ≫= k) h = (Raise e, h').
Proof. intros Hm. unfold mbind, M_bind, Py.bind. by rewrite Hm. Qed.
End Primitives.

Lemma is_config_distinct h c rv cc attrs d l :
  is_config h c rv cc attrs d l → rv ≠ c ∧ cc ≠ c ∧ rv ≠ cc.
Proof. intros (Hc & _ & Hrv & _ & Hcc). repeat split; congruence. Qed.

Lemma htcondor_job_config_run environ self h c rv cc attrs d l job_num branches :
  is_config h c rv cc attrs d l →
  htcondor_job_config environ self (VRef c) job_num branches h
  = (Ok (VRef c), rendered_heap environ h rv cc d l).
Proof.
  intros Hcfg. destruct (is_config_distinct _ _ _ _ _ _ _ Hcfg) as (Hrc & Hcc' & Hrcc).
  destruct Hcfg as (Hc & Hrv & Hd & Hcc & Hl).
  unfold htcondor_job_config, rendered_heap, policy_directives.
  erewrite bind_ok; [| by eapply getattr_ok].
  erewrite bind_ok; [| by eapply setitem_ok].
  set (h1 := <[rv := _]> h).
  assert (H1c : h1 !! c = Some (OInst attrs)) by (subst h1; by rewrite lookup_insert_ne).
  assert (H1l : h1 !! cc = Some (OList l)) by (subst h1; by rewrite lookup_insert_ne).
  erewrite bind_ok; [| by eapply getattr_ok].
  erewrite bind_ok; [| by eapply append_ok].
  erewrite bind_ok; [| eapply getattr_ok; [by rewrite lookup_insert_ne | done]].
  erewrite bind_ok; [| eapply append_ok; by rewrite lookup_insert_eq].
  rewrite insert_insert_eq.
  erewrite bind_ok; [| eapply getattr_ok; [by rewrite lookup_insert_ne | done]].
  erewrite bind_ok; [| eapply append_ok; by rewrite lookup_insert_eq].
  rewrite insert_insert_eq.
  rewrite <- !app_assoc. reflexivity.
Qed.

(** A call on something that is not an object raises at the first attribute
    access and leaves the heap alone. *)
Lemma htcondor_job_config_none environ self h job_num branches :
  htcondor_job_config environ self VNone job_num branches h = (Raise AttributeError, h).
Proof. unfold htcondor_job_config. by erewrite bind_raise. Qed.

(** ** The view of a config before and after a call *)

Lemma read_config_inv h config v :
  read_config h config = Some v →
  ∃ c rv cc attrs, config = VRef c ∧
    is_config h c rv cc attrs (render_variables v) (custom_content v).
Proof.
  unfold read_config, attr_loc, Py.getattr, is_config. intros Hv.
  destruct config as [| | | |c]; try discriminate.
  destruct (h !! c) as [[| |attrs]|] eqn:Hc; try discriminate.
  destruct (attrs !! "render_variables") as [[| | | |rv]|] eqn:Hrv; try discriminate.
  destruct (attrs !! "custom_content") as [[| | | |cc]|] eqn:Hcc; try discriminate.
  destruct (h !! rv) as [[d| |]|] eqn:Hd; try discriminate.
  destruct (h !! cc) as [[|l|]|] eqn:Hl; try discriminate.
  injection Hv as <-. by exists c, rv, cc, attrs.
Qed.

Lemma read_config_intro h c rv cc attrs d l :
  is_config h c rv cc attrs d l →
  read_config h (VRef c) = Some {| render_variables := d; custom_content := l |}.
Proof.
  intros (Hc & Hrv & Hd & Hcc & Hl).
  unfold read_config, attr_loc, Py.getattr. by rewrite Hc, Hrv, Hcc, Hd, Hl.
Qed.

Lemma is_config_rendered environ h c rv cc attrs d l :
  is_config h c rv cc attrs d l →
  is_config (rendered_heap environ h rv cc d l) c rv cc attrs
    (<["analysis_path" := os.getenv environ "ANALYSIS_PATH"]> d)
    (l ++ policy_directives).
Proof.
  intros Hcfg. destruct (is_config_distinct _ _ _ _ _ _ _ Hcfg) as (Hrc & Hcc' & Hrcc).
  destruct Hcfg as (Hc & Hrv & Hd & Hcc & Hl). unfold rendered_heap.
  repeat split; try done.
  - by rewrite !lookup_insert_ne.
  - rewrite lookup_insert_ne by done. by rewrite lookup_insert_eq.
  - by rewrite lookup_insert_eq.
Qed.

(** What one call does to the view: it succeeds on every config object,
    returns its argument, sets one key of the dict and extends the list. *)
Lemma render_view environ self h config job_num branches v :
  read_config h config = Some v →
  ∃ h', htcondor_job_config environ self config job_num branches h = (Ok config, h') ∧
        read_config h' config =
          Some {| render_variables :=
                    <["analysis_path" := os.getenv environ "ANALYSIS_PATH"]> (render_variables v);
                  custom_content := custom_content v ++ policy_directives |}.
Proof.
  intros Hv. destruct (read_config_inv _ _ _ Hv) as (c & rv & cc & attrs & -> & Hcfg).
  eexists. split.
  - by eapply htcondor_job_config_run.
  - eapply read_config_intro. by eapply is_config_rendered.
Qed.


(** ** The policy directives *)

Lemma policy_directives_keys :
  directive_key <$> policy_directives
  = [Some "requirements"; Some "getenv"; Some "on_exit_hold"].
Proof. reflexivity. Qed.

(** C1. On every config object the call succeeds, and the rendered
    [custom_content] is the list found there followed by the requirements
    clause for CentOS7, [getenv = true] and the [on_exit_hold] policy, so the
    three are present, in this order, whatever directives were there already.
    The method has no override switch that could leave one out. *)
Theorem policy_directives_present environ self h config job_num branches v :
  read_config h config = Some v →
  ∃ h' v',
    htcondor_job_config environ self config job_num branches h = (Ok config, h') ∧
    read_config h' config = Some v' ∧
    custom_content v'
      = custom_content v
          ++ [requirements_directive; getenv_directive; on_exit_hold_directive] ∧
    [requirements_directive; getenv_directive; on_exit_hold_directive]
      `sublist_of` custom_content v'.
Proof.
  intros Hv.
  destruct (render_view environ self h config job_num branches v Hv) as (h' & Hrun & Hv').
  eexists h', _. repeat split; [exact Hrun | exact Hv' | reflexivity |].
  cbn [custom_content]. apply sublist_inserts_l. reflexivity.
Qed.

Lemma policy_directives_present_witness :
  read_config (sample_heap [VTuple (VStr "getenv") (VStr "false")]) (VRef 1)
    = Some {| render_variables := ∅;
              custom_content := [VTuple (VStr "getenv") (VStr "false")] |} ∧
  ∃ h' v',
    htcondor_job_config ∅ sample_workflow (VRef 1) 0 [0]
      (sample_heap [VTuple (VStr "getenv") (VStr "false")]) = (Ok (VRef 1), h') ∧
    read_config h' (VRef 1) = Some v' ∧
    custom_content v'
      = [VTuple (VStr "getenv") (VStr "false")]
          ++ [requirements_directive; getenv_directive; on_exit_hold_directive] ∧
    [requirements_directive; getenv_directive; on_exit_hold_directive]
      `sublist_of` custom_content v'.
Proof.
  assert (Hv : read_config (sample_heap [VTuple (VStr "getenv") (VStr "false")]) (VRef 1)
    = Some {| render_variables := ∅;
              custom_content := [VTuple (VStr "getenv") (VStr "false")] |})
    by (vm_compute; reflexivity).
  split; [exact Hv |].
  exact (policy_directives_present ∅ sample_workflow _ (VRef 1) 0 [0] _ Hv).
Defined.

(** ** Determinism *)

(** The same config object rendered a second time is a different input: the
    first call has changed it in place, and the second one extends the list
    once more. *)
Lemma rendering_same_object_again environ self h config job_num branches v :
  read_config h config = Some v →
  ∃ h' h'' v'',
    htcondor_job_config environ self config job_num branches h = (Ok config, h') ∧
    htcondor_job_config environ self config job_num branches h' = (Ok config, h'') ∧
    read_config h'' config = Some v'' ∧
    custom_content v'' = custom_content v ++ policy_directives ++ policy_directives.
Proof.
  intros Hv.
  destruct (render_view environ self h config job_num branches v Hv) as (h' & Hr1 & Hv').
  destruct (render_view environ self h' config job_num branches _ Hv') as (h'' & Hr2 & Hv'').
  eexists h', h'', _. repeat split; [done | done | exact Hv'' |].
  cbn [custom_content]. by rewrite <- app_assoc.
Qed.

(** Against C2: the method is not a pure function of its arguments. The
    same config object, rendered twice with the same arguments in the same
    environment, holds three directives after the first call and six after
    the second. *)
Lemma rendering_same_object_differs :
  ∃ h1 h2 v1 v2,
    htcondor_job_config ∅ sample_workflow (VRef 1) 0 [0] (sample_heap [])
      = (Ok (VRef 1), h1) ∧
    htcondor_job_config ∅ sample_workflow (VRef 1) 0 [0] h1 = (Ok (VRef 1), h2) ∧
    read_config h1 (VRef 1) = Some v1 ∧
    read_config h2 (VRef 1) = Some v2 ∧
    length (custom_content v1) = 3%nat ∧
    length (custom_content v2) = 6%nat ∧
    custom_content v1 ≠ custom_content v2.
Proof.
  assert (Hv : read_config (sample_heap []) (VRef 1)
    = Some {| render_variables := ∅; custom_content := [] |})
    by (vm_compute; reflexivity).
  destruct (render_view ∅ sample_workflow _ (VRef 1) 0 [0] _ Hv) as (h1 & Hr1 & Hv1).
  destruct (render_view ∅ sample_workflow _ (VRef 1) 0 [0] _ Hv1) as (h2 & Hr2 & Hv2).
  eexists h1, h2, _, _.
  split; [exact Hr1 |]. split; [exact Hr2 |]. split; [exact Hv1 |]. split; [exact Hv2 |].
  cbn [custom_content]. split; [reflexivity |]. split; [reflexivity |].
  intros Heq. apply (f_equal length) in Heq. discriminate Heq.
Qed.

(** C2, amended. Rendering is determined by the contents of the config and
    by the process environment, but the config is changed in place: two calls
    with the same environment, workflow, job number and branches, each on a
    config with the same render variables and directives, both succeed and
    leave equal job configurations, which are the common contents with the
    three directives behind them; a further call on an object that has been
    rendered adds the three directives once more. *)
Theorem rendering_by_contents environ self job_num branches h1 config1 h2 config2 v :
  read_config h1 config1 = Some v →
  read_config h2 config2 = Some v →
  ∃ h1' h2' v',
    htcondor_job_config environ self config1 job_num branches h1 = (Ok config1, h1') ∧
    htcondor_job_config environ self config2 job_num branches h2 = (Ok config2, h2') ∧
    read_config h1' config1 = Some v' ∧
    read_config h2' config2 = Some v' ∧
    custom_content v' = custom_content v ++ policy_directives ∧
    ∃ h1'' v'',
      htcondor_job_config environ self config1 job_num branches h1' = (Ok config1, h1'') ∧
      read_config h1'' config1 = Some v'' ∧
      render_variables v'' = render_variables v' ∧
      custom_content v'' = custom_content v' ++ policy_directives.
Proof.
  intros H1 H2.
  destruct (render_view environ self h1 config1 job_num branches v H1) as (h1' & Hr1 & Hv1).
  destruct (render_view environ self h2 config2 job_num branches v H2) as (h2' & Hr2 & Hv2).
  destruct (render_view environ self h1' config1 job_num branches _ Hv1)
    as (h1'' & Hr1' & Hv1').
  eexists h1', h2', _.
  split; [exact Hr1 |]. split; [exact Hr2 |]. split; [exact Hv1 |]. split; [exact Hv2 |].
  split; [reflexivity |].
  eexists h1'', _. split; [exact Hr1' |]. split; [exact Hv1' |].
  cbn [render_variables custom_content]. split; [| reflexivity].
  by rewrite insert_insert_eq.
Qed.

Lemma rendering_by_contents_witness :
  read_config (sample_heap []) (VRef 1)
    = Some {| render_variables := ∅; custom_content := [] |} ∧
  read_config (sample_heap_alt []) (VRef 7)
    = Some {| render_variables := ∅; custom_content := [] |} ∧
  ∃ h1' h2' v',
    htcondor_job_config {[ "ANALYSIS_PATH" := "/afs/analysis" ]} sample_workflow
      (VRef 1) 4 [4; 5] (sample_heap []) = (Ok (VRef 1), h1') ∧
    htcondor_job_config {[ "ANALYSIS_PATH" := "/afs/analysis" ]} sample_workflow
      (VRef 7) 4 [4; 5] (sample_heap_alt []) = (Ok (VRef 7), h2') ∧
    read_config h1' (VRef 1) = Some v' ∧
    read_config h2' (VRef 7) = Some v' ∧
    custom_content v' = [] ++ policy_directives ∧
    ∃ h1'' v'',
      htcondor_job_config {[ "ANALYSIS_PATH" := "/afs/analysis" ]} sample_workflow
        (VRef 1) 4 [4; 5] h1' = (Ok (VRef 1), h1'') ∧
      read_config h1'' (VRef 1) = Some v'' ∧
      render_variables v'' = render_variables v' ∧
      custom_content v'' = custom_content v' ++ policy_directives.
Proof.
  assert (H1 : read_config (sample_heap []) (VRef 1)
    = Some {| render_variables := ∅; custom_content := [] |})
    by (vm_compute; reflexivity).
  assert (H2 : read_config (sample_heap_alt []) (VRef 7)
    = Some {| render_variables := ∅; custom_content := [] |})
    by (vm_compute; reflexivity).
  split; [exact H1 |]. split; [exact H2 |].
  exact (rendering_by_contents {[ "ANALYSIS_PATH" := "/afs/analysis" ]} sample_workflow
           4 [4; 5] _ (VRef 1) _ (VRef 7) _ H1 H2).
Defined.

(** ** The runtime cap *)

(** C3. Rendering adds no [+MaxRuntime] directive, whatever the workflow's
    [max_runtime]: a directive with that key in the rendered list was in the
    list before the call, so a config that comes without one is rendered
    without one. *)
Theorem no_max_runtime_directive environ self h config job_num branches v :
  read_config h config = Some v →
  ∃ h' v',
    htcondor_job_config environ self config job_num branches h = (Ok config, h') ∧
    read_config h' config = Some v' ∧
    (∀ x, x ∈ custom_content v' → directive_key x = Some "+MaxRuntime" →
          x ∈ custom_content v) ∧
    (Forall (λ x, directive_key x ≠ Some "+MaxRuntime") (custom_content v) →
     Forall (λ x, directive_key x ≠ Some "+MaxRuntime") (custom_content v')).
Proof.
  intros Hv.
  destruct (render_view environ self h config job_num branches v Hv) as (h' & Hrun & Hv').
  eexists h', _. repeat split; [exact Hrun | exact Hv' | |]; cbn [custom_content].
  - intros x Hx Hk. apply elem_of_app in Hx as [Hx|Hx]; [done |].
    unfold policy_directives in Hx.
    repeat (apply elem_of_cons in Hx as [->|Hx]; [discriminate Hk |]).
    by apply elem_of_nil in Hx.
  - intros Hall. apply Forall_app. split; [done |].
    unfold policy_directives. repeat constructor; discriminate.
Qed.

Lemma no_max_runtime_directive_witness :
  read_config (sample_heap []) (VRef 1)
    = Some {| render_variables := ∅; custom_content := [] |} ∧
  ∃ h' v',
    htcondor_job_config ∅ sample_workflow (VRef 1) 7 [7; 8] (sample_heap [])
      = (Ok (VRef 1), h') ∧
    read_config h' (VRef 1) = Some v' ∧
    (∀ x, x ∈ custom_content v' → directive_key x = Some "+MaxRuntime" →
          x ∈ []) ∧
    (Forall (λ x, directive_key x ≠ Some "+MaxRuntime") [] →
     Forall (λ x, directive_key x ≠ Some "+MaxRuntime") (custom_content v')).
Proof.
  assert (Hv : read_config (sample_heap []) (VRef 1)
    = Some {| render_variables := ∅; custom_content := [] |})
    by (vm_compute; reflexivity).
  split; [exact Hv |].
  exact (no_max_runtime_directive ∅ sample_workflow _ (VRef 1) 7 [7; 8] _ Hv).
Defined.

(** ** The render variable *)

(** Against C6: with [ANALYSIS_PATH] unset the call does not fail; it
    returns the config and has stored [None] under ["analysis_path"]. *)
Lemma analysis_path_unset_accepted :
  ∃ v', run_view ∅ sample_workflow (VRef 1) 0 [0] (sample_heap [])
          = (Ok (VRef 1), Some v') ∧
        render_variables v' !! "analysis_path" = Some VNone.
Proof. eexists. split; vm_compute; reflexivity. Qed.

(** The same with the variable set to the empty string. *)
Lemma analysis_path_empty_accepted :
  ∃ v', run_view {[ "ANALYSIS_PATH" := "" ]} sample_workflow (VRef 1) 0 [0] (sample_heap [])
          = (Ok (VRef 1), Some v') ∧
        render_variables v' !! "analysis_path" = Some (VStr "").
Proof. eexists. split; vm_compute; reflexivity. Qed.

(** C6, amended. The value that [os.getenv] gives for [ANALYSIS_PATH] is
    stored under ["analysis_path"] as it is, without a check: the string when
    the variable is set (the empty string included), [None] when it is not.
    On a config object the call never fails. *)
Theorem analysis_path_injected_verbatim environ self h config job_num branches v :
  read_config h config = Some v →
  ∃ h' v',
    htcondor_job_config environ self config job_num branches h = (Ok config, h') ∧
    read_config h' config = Some v' ∧
    render_variables v' !! "analysis_path"
      = Some (match environ !! "ANALYSIS_PATH" with
              | Some s => VStr s
              | None => VNone
              end).
Proof.
  intros Hv.
  destruct (render_view environ self h config job_num branches v Hv) as (h' & Hrun & Hv').
  eexists h', _. repeat split; [exact Hrun | exact Hv' |].
  cbn [render_variables]. by rewrite lookup_insert_eq.
Qed.

Lemma analysis_path_injected_verbatim_witness :
  read_config (sample_heap []) (VRef 1)
    = Some {| render_variables := ∅; custom_content := [] |} ∧
  ∃ h' v',
    htcondor_job_config {[ "ANALYSIS_PATH" := "/afs/analysis" ]} sample_workflow
      (VRef 1) 0 [0] (sample_heap []) = (Ok (VRef 1), h') ∧
    read_config h' (VRef 1) = Some v' ∧
    render_variables v' !! "analysis_path"
      = Some (match ({[ "ANALYSIS_PATH" := "/afs/analysis" ]} : gmap string string)
                      !! "ANALYSIS_PATH" with
              | Some s => VStr s
              | None => VNone
              end).
Proof.
  assert (Hv : read_config (sample_heap []) (VRef 1)
    = Some {| render_variables := ∅; custom_content := [] |})
    by (vm_compute; reflexivity).
  split; [exact Hv |].
  exact (analysis_path_injected_verbatim {[ "ANALYSIS_PATH" := "/afs/analysis" ]}
           sample_workflow _ (VRef 1) 0 [0] _ Hv).
Defined.

(** ** The frame of a call *)

(** C9. A call on a config object returns that very object. The object's
    own attribute table is as before, so every field holds the value it held;
    the dict behind [render_variables] differs in the key ["analysis_path"]
    only; the list behind [custom_content] is the old list with three entries
    after it; no other object of the heap has changed. *)
Theorem htcondor_job_config_frame environ self h c rv cc attrs d l job_num branches :
  is_config h c rv cc attrs d l →
  ∃ h' d' l',
    htcondor_job_config environ self (VRef c) job_num branches h = (Ok (VRef c), h') ∧
    h' !! c = Some (OInst attrs) ∧
    h' !! rv = Some (ODict d') ∧
    d' !! "analysis_path" = Some (os.getenv environ "ANALYSIS_PATH") ∧
    (∀ k, k ≠ "analysis_path" → d' !! k = d !! k) ∧
    h' !! cc = Some (OList l') ∧
    l' = l ++ policy_directives ∧
    (∀ i x, l !! i = Some x → l' !! i = Some x) ∧
    (∀ o, o ≠ rv → o ≠ cc → h' !! o = h !! o).
Proof.
  intros Hcfg.
  pose proof (htcondor_job_config_run environ self h c rv cc attrs d l job_num branches Hcfg) as Hrun.
  destruct (is_config_rendered environ _ _ _ _ _ _ _ Hcfg) as (Hc & _ & Hd & _ & Hl).
  eexists _, _, _. split; [exact Hrun |].
  split; [exact Hc |]. split; [exact Hd |].
  split; [by rewrite lookup_insert_eq |].
  split; [by intros k Hk; rewrite lookup_insert_ne |].
  split; [exact Hl |]. split; [reflexivity |].
  split.
  - intros i x Hi. by apply lookup_app_l_Some.
  - intros o Hrv Hcc. unfold rendered_heap. by rewrite !lookup_insert_ne.
Qed.

Lemma htcondor_job_config_frame_witness :
  is_config (sample_heap [VTuple (VStr "universe") (VStr "vanilla")]) 1 2 3
    sample_attrs ∅ [VTuple (VStr "universe") (VStr "vanilla")] ∧
  ∃ h' d' l',
    htcondor_job_config ∅ sample_workflow (VRef 1) 0 [0]
      (sample_heap [VTuple (VStr "universe") (VStr "vanilla")]) = (Ok (VRef 1), h') ∧
    h' !! 1%positive = Some (OInst sample_attrs) ∧
    h' !! 2%positive = Some (ODict d') ∧
    d' !! "analysis_path" = Some (os.getenv ∅ "ANALYSIS_PATH") ∧
    (∀ k, k ≠ "analysis_path" → d' !! k = (∅ : gmap string pyval) !! k) ∧
    h' !! 3%positive = Some (OList l') ∧
    l' = [VTuple (VStr "universe") (VStr "vanilla")] ++ policy_directives ∧
    (∀ i x, [VTuple (VStr "universe") (VStr "vanilla")] !! i = Some x → l' !! i = Some x) ∧
    (∀ o, o ≠ 2%positive → o ≠ 3%positive →
          h' !! o = sample_heap [VTuple (VStr "universe") (VStr "vanilla")] !! o).
Proof.
  assert (Hcfg : is_config (sample_heap [VTuple (VStr "universe") (VStr "vanilla")]) 1 2 3
    sample_attrs ∅ [VTuple (VStr "universe") (VStr "vanilla")])
    by (repeat split; vm_compute; reflexivity).
  split; [exact Hcfg |].
  exact (htcondor_job_config_frame ∅ sample_workflow _ 1 2 3 _ _ _ 0 [0] Hcfg).
Defined.

(** ** The hold policy *)

Lemma on_exit_hold_parse :
  ClassAd.parse on_exit_hold_predicate
  = Some (ClassAd.EOr
            (ClassAd.EOr
               (ClassAd.EEq (ClassAd.EAttr "ExitBySignal") (ClassAd.EBool true))
               (ClassAd.ENe (ClassAd.EAttr "ExitStatus") (ClassAd.EInt 0)))
            (ClassAd.ENe (ClassAd.EAttr "ExitCode") (ClassAd.EInt 0))).
Proof. vm_compute. reflexivity. Qed.

(** The predicate is true exactly on an exit by signal or with a nonzero
    status or code; an attribute that is undefined does not get in the way
    of another one that decides. *)
Lemma on_exit_hold_true_iff (ad : exit_ad) :
  ClassAd.evaluate on_exit_hold_predicate (exit_ad_lookup ad) = Some (ClassAd.Bool true)
  ↔ abnormal_exit ad.
Proof.
  unfold ClassAd.evaluate, abnormal_exit. rewrite on_exit_hold_parse.
  destruct ad as [sig status code].
  cbn [fmap option_fmap option_map ClassAd.eval ExitBySignal ExitStatus ExitCode].
  change (exit_ad_lookup ?a "ExitBySignal") with
    (from_option ClassAd.Bool ClassAd.Undefined (ExitBySignal a)).
  change (exit_ad_lookup ?a "ExitStatus") with
    (from_option ClassAd.Int ClassAd.Undefined (ExitStatus a)).
  change (exit_ad_lookup ?a "ExitCode") with
    (from_option ClassAd.Int ClassAd.Undefined (ExitCode a)).
  cbn [ExitBySignal ExitStatus ExitCode].
  destruct sig as [[]|], status as [s|], code as [c|]; cbn;
    try destruct (Z.eqb_spec s 0); try destruct (Z.eqb_spec c 0); cbn;
    (split;
     [ intros Hev; first [ discriminate Hev | eauto 6 ]
     | intros [Hsig | [(z & Hz & Hnz) | (z & Hz & Hnz)]];
       first [ reflexivity | discriminate | congruence ] ]).
Qed.

Lemma in_force_after_render (l : list pyval) :
  directive_in_force "on_exit_hold" (l ++ policy_directives)
  = Some (VStr on_exit_hold_predicate).
Proof.
  unfold directive_in_force. rewrite filter_app.
  replace (filter (λ x, has_key "on_exit_hold" x = true) policy_directives)
    with [on_exit_hold_directive] by (vm_compute; reflexivity).
  by rewrite last_snoc.
Qed.

(** C4. Every rendered configuration contains the [on_exit_hold] directive,
    and it is the one in force. Its predicate evaluates to true exactly when
    the job exits by signal or with a nonzero exit status or exit code, and a
    Running job with such an exit goes to Held, which is not terminal. *)
Theorem on_exit_hold_policy environ self h config job_num branches v :
  read_config h config = Some v →
  ∃ h' v',
    htcondor_job_config environ self config job_num branches h = (Ok config, h') ∧
    read_config h' config = Some v' ∧
    VTuple (VStr "on_exit_hold") (VStr on_exit_hold_predicate) ∈ custom_content v' ∧
    directive_in_force "on_exit_hold" (custom_content v')
      = Some (VStr on_exit_hold_predicate) ∧
    (∀ ad, ClassAd.evaluate on_exit_hold_predicate (exit_ad_lookup ad)
             = Some (ClassAd.Bool true) ↔ abnormal_exit ad) ∧
    (∀ ad, abnormal_exit ad →
           running_exit (custom_content v') ad = Held ∧
           terminal (running_exit (custom_content v') ad) = false).
Proof.
  intros Hv.
  destruct (render_view environ self h config job_num branches v Hv) as (h' & Hrun & Hv').
  eexists h', _. split; [exact Hrun |]. split; [exact Hv' |]. cbn [custom_content].
  split; [| split; [| split]].
  - apply elem_of_app. right. unfold policy_directives, on_exit_hold_directive.
    rewrite !elem_of_cons. auto.
  - apply in_force_after_render.
  - apply on_exit_hold_true_iff.
  - intros ad Had. unfold running_exit. rewrite in_force_after_render.
    apply on_exit_hold_true_iff in Had. by rewrite Had.
Qed.

Lemma on_exit_hold_policy_witness :
  read_config (sample_heap [VTuple (VStr "on_exit_hold") (VStr "False")]) (VRef 1)
    = Some {| render_variables := ∅;
              custom_content := [VTuple (VStr "on_exit_hold") (VStr "False")] |} ∧
  ∃ h' v',
    htcondor_job_config ∅ sample_workflow (VRef 1) 0 [0]
      (sample_heap [VTuple (VStr "on_exit_hold") (VStr "False")]) = (Ok (VRef 1), h') ∧
    read_config h' (VRef 1) = Some v' ∧
    VTuple (VStr "on_exit_hold") (VStr on_exit_hold_predicate) ∈ custom_content v' ∧
    directive_in_force "on_exit_hold" (custom_content v')
      = Some (VStr on_exit_hold_predicate) ∧
    (∀ ad, ClassAd.evaluate on_exit_hold_predicate (exit_ad_lookup ad)
             = Some (ClassAd.Bool true) ↔ abnormal_exit ad) ∧
    (∀ ad, abnormal_exit ad →
           running_exit (custom_content v') ad = Held ∧
           terminal (running_exit (custom_content v') ad) = false).
Proof.
  assert (Hv : read_config (sample_heap [VTuple (VStr "on_exit_hold") (VStr "False")]) (VRef 1)
    = Some {| render_variables := ∅;
              custom_content := [VTuple (VStr "on_exit_hold") (VStr "False")] |})
    by (vm_compute; reflexivity).
  split; [exact Hv |].
  exact (on_exit_hold_policy ∅ sample_workflow _ (VRef 1) 0 [0] _ Hv).
Defined.

(** A job killed by signal 9, a job that exits with code 1 and a job that
    exits with code 0, against a rendered directive list. *)
Example running_exit_samples :
  let rendered := policy_directives in
  running_exit rendered {| ExitBySignal := Some true; ExitStatus := None; ExitCode := None |} = Held ∧
  running_exit rendered {| ExitBySignal := Some false; ExitStatus := Some 1; ExitCode := Some 1 |} = Held ∧
  running_exit rendered {| ExitBySignal := Some false; ExitStatus := Some 0; ExitCode := Some 0 |} = Completed.
Proof. vm_compute. auto. Qed.

(** ** Construction *)




Lemma negative_max_runtime_accepted :
  ∃ w, declared_new "CreateChars" (Some "v1") (Some (-1)%Q) = Ok w ∧
       (max_runtime w < 0)%Q.
Proof. eexists. split; [reflexivity |]. reflexivity. Qed.





(** ** Paths *)

Lemma append_assoc (a b c : string) : (a +:+ b) +:+ c = a +:+ (b +:+ c).
Proof.
  induction a as [|x a IH]; [reflexivity |].
  change (String x ((a +:+ b) +:+ c) = String x (a +:+ (b +:+ c))). by rewrite IH.
Qed.

Lemma is_empty_append (a b : string) :
  os.is_empty (a +:+ b) = os.is_empty a && os.is_empty b.
Proof. destruct a; reflexivity. Qed.

Lemma startswith_sep_append (p x : string) :
  os.is_empty p = false → os.startswith_sep (p +:+ x) = os.startswith_sep p.
Proof. destruct p; [discriminate | reflexivity]. Qed.

Lemma endswith_sep_append (a b : string) :
  os.is_empty b = false → os.endswith_sep (a +:+ b) = os.endswith_sep b.
Proof.
  intros Hb. induction a as [|x a IH]; [reflexivity |].
  change (String x a +:+ b) with (String x (a +:+ b)). rewrite <- IH.
  destruct (a +:+ b) eqn:Hab; [| reflexivity].
  pose proof (is_empty_append a b) as He. rewrite Hab, Hb, andb_false_r in He.
  discriminate He.
Qed.

(** A join step yields an absolute path exactly when the new component is
    absolute or the path so far was. *)
Lemma isabs_join_step (p b : string) :
  os.path_isabs (os.join_step p b) = os.path_isabs b || os.path_isabs p.
Proof.
  unfold os.path_isabs, os.join_step.
  destruct (os.startswith_sep b) eqn:Hb; cbv iota; [by rewrite Hb |].
  destruct p as [|c p]; [exact Hb |].
  cbn [os.is_empty orb].
  destruct (os.endswith_sep (String c p)); by rewrite startswith_sep_append.
Qed.

Lemma local_path_unset environ self path :
  environ !! "ANALYSIS_DATA_PATH" = None →
  local_path environ self path = Raise TypeError.
Proof. intros He. unfold local_path, os.getenv. by rewrite He. Qed.

Lemma local_path_no_segments environ self d :
  environ !! "ANALYSIS_DATA_PATH" = Some d →
  local_path environ self []
  = Ok (os.join_step (os.join_step d (cls_name self)) (version self)).
Proof. intros He. unfold local_path, os.getenv. by rewrite He. Qed.

Lemma join_loop_plain (segments : list string) : ∀ path,
  os.is_empty path = false → os.endswith_sep path = false →
  forallb plain_segment segments = true →
  os.join_loop path (VStr <$> segments) = Ok (path +:+ slashed segments).
Proof.
  induction segments as [|b rest IH]; intros path Hne Hend Hall.
  - cbn [fmap list_fmap os.join_loop slashed]. f_equal. clear.
    induction path as [|c p IHp]; [reflexivity |].
    change (String c p +:+ "") with (String c (p +:+ "")). by rewrite <- IHp.
  - cbn in Hall. apply andb_prop in Hall as [Hb Hrest].
    unfold plain_segment in Hb.
    apply andb_prop in Hb as [Hb Hbend]. apply andb_prop in Hb as [Hbne Hbabs].
    apply negb_true_iff in Hbne, Hbabs, Hbend.
    cbn [fmap list_fmap os.join_loop os.fspath]. unfold os.join_step.
    rewrite Hbabs, Hne, Hend. cbn [orb].
    rewrite IH; [ cbn [slashed]; f_equal; rewrite !append_assoc; reflexivity | | | done].
    + by rewrite is_empty_append, Hne.
    + rewrite endswith_sep_append; [| reflexivity].
      change (os.sep +:+ b) with (String "/"%char b).
      destruct b; [discriminate | exact Hbend].
Qed.

(** Against C7: with a relative [ANALYSIS_DATA_PATH] the path given to the
    output directory target is relative. *)
Lemma output_directory_relative :
  htcondor_output_directory {[ "ANALYSIS_DATA_PATH" := "data" ]} sample_workflow
    = Ok {| target_path := "data/CreateChars/v1" |} ∧
  os.path_isabs "data/CreateChars/v1" = false.
Proof. split; vm_compute; reflexivity. Qed.

(** With the variable unset there is no directory at all: joining [None]
    raises. *)
Lemma output_directory_unset environ self :
  environ !! "ANALYSIS_DATA_PATH" = None →
  htcondor_output_directory environ self = Raise TypeError.
Proof.
  intros He. unfold htcondor_output_directory. by rewrite local_path_unset.
Qed.

(** The path is absolute exactly when one of the three components is. *)
Lemma output_directory_isabs environ self d :
  environ !! "ANALYSIS_DATA_PATH" = Some d →
  ∃ t, htcondor_output_directory environ self = Ok t ∧
       os.path_isabs (target_path t)
       = os.path_isabs d || os.path_isabs (cls_name (task self))
         || os.path_isabs (version (task self)).
Proof.
  intros He. unfold htcondor_output_directory.
  rewrite (local_path_no_segments _ _ _ He). eexists. split; [reflexivity |].
  cbn [target_path]. rewrite !isabs_join_step.
  by destruct (os.path_isabs d), (os.path_isabs (cls_name (task self))),
       (os.path_isabs (version (task self))).
Qed.

(** C7, amended. When [ANALYSIS_DATA_PATH] is set to an absolute path, the
    output directory of every task exists and its path is absolute. The
    method adds no check or normalisation of its own. *)
Theorem output_directory_absolute environ self d :
  environ !! "ANALYSIS_DATA_PATH" = Some d →
  os.path_isabs d = true →
  ∃ t, htcondor_output_directory environ self = Ok t ∧
       os.path_isabs (target_path t) = true.
Proof.
  intros He Habs. destruct (output_directory_isabs environ self d He) as (t & Ht & Hp).
  exists t. split; [exact Ht |]. by rewrite Hp, Habs.
Qed.

Lemma output_directory_absolute_witness :
  ({[ "ANALYSIS_DATA_PATH" := "/nfs/data" ]} : gmap string string) !! "ANALYSIS_DATA_PATH"
    = Some "/nfs/data" ∧
  os.path_isabs "/nfs/data" = true ∧
  ∃ t, htcondor_output_directory {[ "ANALYSIS_DATA_PATH" := "/nfs/data" ]} sample_workflow
         = Ok t ∧
       os.path_isabs (target_path t) = true.
Proof.
  assert (He : ({[ "ANALYSIS_DATA_PATH" := "/nfs/data" ]} : gmap string string)
                 !! "ANALYSIS_DATA_PATH" = Some "/nfs/data") by (vm_compute; reflexivity).
  assert (Habs : os.path_isabs "/nfs/data" = true) by reflexivity.
  split; [exact He |]. split; [exact Habs |].
  exact (output_directory_absolute _ sample_workflow _ He Habs).
Defined.

(** C8. [local_path] is [os.path.join] of the value of [ANALYSIS_DATA_PATH],
    the class name, the version and the given segments, in this order. With
    plain segments behind a data path that does not end in a separator this
    is the data path followed by each of them behind a [/]. *)
Theorem local_path_join_order environ self path :
  local_path environ self path
    = os.path_join (os.getenv environ "ANALYSIS_DATA_PATH"
                      :: VStr (cls_name self) :: VStr (version self) :: path) ∧
  ∀ d segments,
    environ !! "ANALYSIS_DATA_PATH" = Some d →
    os.is_empty d = false → os.endswith_sep d = false →
    path = VStr <$> segments →
    forallb plain_segment (cls_name self :: version self :: segments) = true →
    local_path environ self path
      = Ok (d +:+ slashed (cls_name self :: version self :: segments)).
Proof.
  split; [reflexivity |].
  intros d segments He Hne Hend -> Hall.
  unfold local_path, os.getenv, store_parts, tuple2_items. rewrite He.
  cbn [fst snd app os.path_join os.fspath].
  by apply (join_loop_plain (cls_name self :: version self :: segments)).
Qed.

Lemma local_path_join_order_witness :
  ({[ "ANALYSIS_DATA_PATH" := "/nfs/data" ]} : gmap string string) !! "ANALYSIS_DATA_PATH"
    = Some "/nfs/data" ∧
  forallb plain_segment ["CreateChars"; "v1"; "chars"; "out.json"] = true ∧
  local_path {[ "ANALYSIS_DATA_PATH" := "/nfs/data" ]} (task sample_workflow)
    [VStr "chars"; VStr "out.json"]
  = Ok "/nfs/data/CreateChars/v1/chars/out.json".
Proof.
  assert (He : ({[ "ANALYSIS_DATA_PATH" := "/nfs/data" ]} : gmap string string)
                 !! "ANALYSIS_DATA_PATH" = Some "/nfs/data") by (vm_compute; reflexivity).
  assert (Hall : forallb plain_segment ["CreateChars"; "v1"; "chars"; "out.json"] = true)
    by reflexivity.
  split; [exact He |]. split; [exact Hall |].
  exact (proj2 (local_path_join_order {[ "ANALYSIS_DATA_PATH" := "/nfs/data" ]}
                  (task sample_workflow) [VStr "chars"; VStr "out.json"])
           "/nfs/data" ["chars"; "out.json"] He eq_refl eq_refl eq_refl Hall).
Defined.

(** * Further properties of the methods *)

(** ** What the primitive statements can do *)

Lemma getattr_inv o name h r h' :
  Py.getattr o name h = (r, h') →
  h' = h ∧
  ((∃ c attrs v, o = VRef c ∧ h !! c = Some (OInst attrs) ∧
                 attrs !! name = Some v ∧ r = Ok v)
   ∨ (r = Raise AttributeError ∧
      ∀ c attrs, o = VRef c → h !! c = Some (OInst attrs) → attrs !! name = None)).
Proof.
  unfold Py.getattr. intros Hg.
  destruct o as [| | | |c];
    try (simplify_eq; split; [done | right; split; [done | intros ? ? [=]]]).
  destruct (h !! c) as [[d|l|attrs]|] eqn:Hc;
    try (simplify_eq; split; [done | right; split; [done | intros ? ? [= <-] ?; congruence]]).
  destruct (attrs !! name) as [v|] eqn:Hv; simplify_eq; (split; [done |]).
  - left. by exists c, attrs, v.
  - right. split; [done |]. intros c' attrs' [= <-] Hc'. by simplify_eq.
Qed.

Lemma setitem_inv o k v h r h' :
  Py.setitem o k v h = (r, h') →
  (∃ l d, o = VRef l ∧ h !! l = Some (ODict d) ∧ r = Ok tt ∧
          h' = <[l := ODict (<[k := v]> d)]> h)
  ∨ (r = Raise TypeError ∧ h' = h).
Proof.
  unfold Py.setitem. intros Hs.
  destruct o as [| | | |l]; try (simplify_eq; by right).
  destruct (h !! l) as [[d| |]|] eqn:Hl; simplify_eq; try by right.
  left. by exists l, d.
Qed.

Lemma append_inv o x h r h' :
  Py.append o x h = (r, h') →
  (∃ l xs, o = VRef l ∧ h !! l = Some (OList xs) ∧ r = Ok tt ∧
           h' = <[l := OList (xs ++ [x])]> h)
  ∨ (r = Raise AttributeError ∧ h' = h).
Proof.
  unfold Py.append. intros Ha.
  destruct o as [| | | |l]; try (simplify_eq; by right).
  destruct (h !! l) as [[|xs|]|] eqn:Hl; simplify_eq; try by right.
  left. by exists l, xs.
Qed.

(** The heap in which [analysis_path] has been stored and nothing else. *)
Lemma raise_shape environ self config job_num branches h e h' :
  htcondor_job_config environ self config job_num branches h = (Raise e, h') →
  h' = h ∨
  ∃ rv d, attr_loc h config "render_variables" = Some rv ∧
          h !! rv = Some (ODict d) ∧
          h' = <[rv := ODict (<["analysis_path" := os.getenv environ "ANALYSIS_PATH"]> d)]> h.
Proof.
  intros Hrun. pose proof Hrun as Hrun0.
  unfold htcondor_job_config in Hrun.
  unfold mbind at 1, M_bind at 1, Py.bind at 1 in Hrun.
  destruct (Py.getattr config "render_variables" h) as [r0 h0] eqn:Hg.
  apply getattr_inv in Hg as [-> [(c & attrs & rvv & -> & Hc & Hrv & ->)|[-> _]]];
    [| left; congruence].
  unfold mbind at 1, M_bind at 1, Py.bind at 1 in Hrun.
  destruct (Py.setitem rvv "analysis_path" _ h) as [r1 h1] eqn:Hs.
  apply setitem_inv in Hs as [(rv & d & -> & Hd & -> & ->)|[-> ->]];
    [| left; congruence].
  assert (Hloc : attr_loc h (VRef c) "render_variables" = Some rv).
  { unfold attr_loc, Py.getattr. by rewrite Hc, Hrv. }
  unfold mbind at 1, M_bind at 1, Py.bind at 1 in Hrun.
  destruct (Py.getattr (VRef c) "custom_content" _) as [r2 h2] eqn:Hg2.
  apply getattr_inv in Hg2 as [-> [(c' & attrs' & ccv & [= <-] & Hc' & Hcc & ->)|[-> _]]];
    [| right; exists rv, d; repeat split; [done | done | congruence]].
  rewrite lookup_insert_ne in Hc' by congruence.
  assert (attrs' = attrs) as -> by congruence.
  unfold mbind at 1, M_bind at 1, Py.bind at 1 in Hrun.
  destruct (Py.append ccv _ _) as [r3 h3] eqn:Ha.
  apply append_inv in Ha as [(cc & l & -> & Hl & -> & ->)|[-> ->]];
    [| right; exists rv, d; repeat split; [done | done | congruence]].
  exfalso.
  assert (cc ≠ rv) by (intros ->; rewrite lookup_insert_eq in Hl; discriminate).
  rewrite lookup_insert_ne in Hl by done.
  assert (Hcfg : is_config h c rv cc attrs d l) by (by repeat split).
  rewrite (htcondor_job_config_run environ self h c rv cc attrs d l _ _ Hcfg) in Hrun0.
  discriminate Hrun0.
Qed.

(** ** Success and failure of a call *)


(** X2. A call that raises has appended nothing: every list and every
    instance of the heap is as it was. The heap is either untouched or
    differs in the [render_variables] dict alone, which has received
    [analysis_path]. *)
Theorem failed_call_appends_nothing environ self config job_num branches h e h' :
  htcondor_job_config environ self config job_num branches h = (Raise e, h') →
  (h' = h ∨
   ∃ rv d, attr_loc h config "render_variables" = Some rv ∧
           h !! rv = Some (ODict d) ∧
           h' = <[rv := ODict (<["analysis_path" := os.getenv environ "ANALYSIS_PATH"]> d)]> h) ∧
  (∀ o l, h !! o = Some (OList l) → h' !! o = Some (OList l)) ∧
  (∀ o attrs, h !! o = Some (OInst attrs) → h' !! o = Some (OInst attrs)).
Proof.
  intros Hrun. pose proof (raise_shape _ _ _ _ _ _ _ _ Hrun) as Hshape.
  split; [exact Hshape |].
  destruct Hshape as [-> | (rv & d & _ & Hd & ->)]; [done |].
  split; intros o x Ho; rewrite lookup_insert_ne; congruence.
Qed.

Lemma failed_call_appends_nothing_witness :
  htcondor_job_config ∅ sample_workflow (VRef 1) 0 [0] sample_heap_none
    = (Raise AttributeError,
       <[2%positive := ODict (<["analysis_path" := os.getenv ∅ "ANALYSIS_PATH"]> ∅)]>
         sample_heap_none) ∧
  ∀ o attrs, sample_heap_none !! o = Some (OInst attrs) →
    (<[2%positive := ODict (<["analysis_path" := os.getenv ∅ "ANALYSIS_PATH"]> ∅)]>
       sample_heap_none) !! o = Some (OInst attrs).
Proof.
  assert (Hrun : htcondor_job_config ∅ sample_workflow (VRef 1) 0 [0] sample_heap_none
    = (Raise AttributeError,
       <[2%positive := ODict (<["analysis_path" := os.getenv ∅ "ANALYSIS_PATH"]> ∅)]>
         sample_heap_none)) by (vm_compute; reflexivity).
  split; [exact Hrun |].
  exact (proj2 (proj2 (failed_call_appends_nothing ∅ sample_workflow (VRef 1) 0 [0]
                         sample_heap_none _ _ Hrun))).
Defined.

(** X3. A failing call is not undone. On an instance whose
    [render_variables] is a dict and whose [custom_content] is a value
    without [append] ([None], a string, a number, a tuple), the call raises
    [AttributeError] after it has stored [analysis_path] in the dict. *)
Theorem failure_keeps_analysis_path environ self h c rv attrs d v job_num branches :
  h !! c = Some (OInst attrs) →
  attrs !! "render_variables" = Some (VRef rv) →
  h !! rv = Some (ODict d) →
  attrs !! "custom_content" = Some v →
  (∀ l, v ≠ VRef l) →
  htcondor_job_config environ self (VRef c) job_num branches h
  = (Raise AttributeError,
     <[rv := ODict (<["analysis_path" := os.getenv environ "ANALYSIS_PATH"]> d)]> h).
Proof.
  intros Hc Hrv Hd Hcc Hv.
  assert (Hrc : rv ≠ c) by congruence.
  unfold htcondor_job_config.
  erewrite bind_ok; [| by eapply getattr_ok].
  erewrite bind_ok; [| by eapply setitem_ok].
  set (h1 := <[rv := _]> h).
  assert (H1c : h1 !! c = Some (OInst attrs)) by (subst h1; by rewrite lookup_insert_ne).
  erewrite bind_ok; [| by eapply getattr_ok].
  eapply bind_raise.
  destruct v as [| | | |l]; try reflexivity. by destruct (Hv l).
Qed.

Lemma failure_keeps_analysis_path_witness :
  htcondor_job_config {[ "ANALYSIS_PATH" := "/afs/analysis" ]} sample_workflow
    (VRef 1) 0 [0] sample_heap_none
  = (Raise AttributeError,
     <[2%positive := ODict (<["analysis_path" :=
         os.getenv {[ "ANALYSIS_PATH" := "/afs/analysis" ]} "ANALYSIS_PATH"]> ∅)]>
       sample_heap_none).
Proof.
  assert (Hc : sample_heap_none !! 1%positive = Some (OInst none_attrs))
    by (vm_compute; reflexivity).
  assert (Hrv : none_attrs !! "render_variables" = Some (VRef 2))
    by (vm_compute; reflexivity).
  assert (Hd : sample_heap_none !! 2%positive = Some (ODict ∅))
    by (vm_compute; reflexivity).
  assert (Hcc : none_attrs !! "custom_content" = Some VNone)
    by (vm_compute; reflexivity).
  assert (Hv : ∀ l, VNone ≠ VRef l) by (intros l; discriminate).
  exact (failure_keeps_analysis_path {[ "ANALYSIS_PATH" := "/afs/analysis" ]}
           sample_workflow sample_heap_none 1 2 none_attrs ∅ VNone 0 [0]
           Hc Hrv Hd Hcc Hv).
Defined.

(** ** What a call reads *)

(** X4. Of its inputs the call uses the config and the value of
    [ANALYSIS_PATH] only: the workflow (its [max_runtime] included), the job
    number, the branches and every other environment variable make no
    difference to the result or to the heap. *)
Theorem htcondor_job_config_reads_only environ1 environ2 self1 self2 config
    job_num1 job_num2 branches1 branches2 h :
  environ1 !! "ANALYSIS_PATH" = environ2 !! "ANALYSIS_PATH" →
  htcondor_job_config environ1 self1 config job_num1 branches1 h
  = htcondor_job_config environ2 self2 config job_num2 branches2 h.
Proof.
  intros Henv. unfold htcondor_job_config, os.getenv. by rewrite Henv.
Qed.

Lemma htcondor_job_config_reads_only_witness :
  htcondor_job_config {[ "ANALYSIS_PATH" := "/afs/analysis"; "HOME" := "/home/a" ]}
    sample_workflow (VRef 1) 0 [0] (sample_heap [])
  = htcondor_job_config {[ "ANALYSIS_PATH" := "/afs/analysis" ]}
      {| task := {| cls_name := "CreateAlphabet"; version := "v2" |}; max_runtime := 48 |}
      (VRef 1) 12 [36; 37; 38] (sample_heap []).
Proof.
  assert (Henv : ({[ "ANALYSIS_PATH" := "/afs/analysis"; "HOME" := "/home/a" ]}
                    : gmap string string) !! "ANALYSIS_PATH"
                 = ({[ "ANALYSIS_PATH" := "/afs/analysis" ]} : gmap string string)
                     !! "ANALYSIS_PATH") by (vm_compute; reflexivity).
  exact (htcondor_job_config_reads_only _ _ sample_workflow
           {| task := {| cls_name := "CreateAlphabet"; version := "v2" |}; max_runtime := 48 |}
           (VRef 1) 0 12 [0] [36; 37; 38] (sample_heap []) Henv).
Defined.

(** ** Calls in a row *)

(** X5. Calling the method again and again on the object it returns never
    fails, leaves [render_variables] as the first call left them, and extends
    [custom_content] by the three directives once per call. *)
Theorem render_times_view environ self job_num branches (k : nat) : ∀ h config v,
  read_config h config = Some v →
  ∃ h',
    render_times environ self job_num branches (S k) config h = (Ok config, h') ∧
    read_config h' config =
      Some {| render_variables :=
                <["analysis_path" := os.getenv environ "ANALYSIS_PATH"]> (render_variables v);
              custom_content :=
                custom_content v ++ concat (replicate (S k) policy_directives) |}.
Proof.
  induction k as [|k IH]; intros h config v Hv;
    destruct (render_view environ self h config job_num branches v Hv) as (h1 & Hrun & Hv1).
  - exists h1. split.
    + cbn [render_times]. by erewrite bind_ok.
    + rewrite Hv1. cbn [replicate concat]. by rewrite app_nil_r.
  - destruct (IH h1 config _ Hv1) as (h' & Hrest & Hv').
    exists h'. split.
    + change (render_times environ self job_num branches (S (S k)) config)
        with (htcondor_job_config environ self config job_num branches
                ≫= render_times environ self job_num branches (S k)).
      by erewrite bind_ok.
    + rewrite Hv'. cbn [render_variables custom_content].
      rewrite insert_insert_eq, <- app_assoc. reflexivity.
Qed.

Lemma render_times_view_witness :
  read_config (sample_heap []) (VRef 1)
    = Some {| render_variables := ∅; custom_content := [] |} ∧
  ∃ h',
    render_times ∅ sample_workflow 0 [0] 3 (VRef 1) (sample_heap []) = (Ok (VRef 1), h') ∧
    read_config h' (VRef 1) =
      Some {| render_variables := <["analysis_path" := os.getenv ∅ "ANALYSIS_PATH"]> ∅;
              custom_content := [] ++ concat (replicate 3 policy_directives) |}.
Proof.
  assert (Hv : read_config (sample_heap []) (VRef 1)
    = Some {| render_variables := ∅; custom_content := [] |})
    by (vm_compute; reflexivity).
  split; [exact Hv |].
  exact (render_times_view ∅ sample_workflow 0 [0] 2 _ (VRef 1) _ Hv).
Defined.

(** ** The keys of the directives *)

Lemma key_count_policy (k : string) :
  key_count k policy_directives = if policy_key k then 1%nat else 0%nat.
Proof.
  unfold key_count, policy_directives, policy_key.
  rewrite !filter_cons, filter_nil.
  change (has_key k requirements_directive) with (String.eqb k "requirements").
  change (has_key k getenv_directive) with (String.eqb k "getenv").
  change (has_key k on_exit_hold_directive) with (String.eqb k "on_exit_hold").
  destruct (String.eqb_spec k "requirements") as [->|_]; [reflexivity |].
  destruct (String.eqb_spec k "getenv") as [->|_]; [reflexivity |].
  destruct (String.eqb_spec k "on_exit_hold") as [->|_]; reflexivity.
Qed.

(** X6. A call adds exactly one directive under each of the keys
    [requirements], [getenv] and [on_exit_hold] and none under any other key:
    no [log], no [+MaxRuntime], no [+RequestRuntime]. Directives of the same
    key that were in the list stay, so the key then occurs more than once. *)
Theorem key_count_after_render environ self h config job_num branches v :
  read_config h config = Some v →
  ∃ h' v',
    htcondor_job_config environ self config job_num branches h = (Ok config, h') ∧
    read_config h' config = Some v' ∧
    ∀ k, key_count k (custom_content v')
         = (key_count k (custom_content v) + if policy_key k then 1 else 0)%nat.
Proof.
  intros Hv.
  destruct (render_view environ self h config job_num branches v Hv) as (h' & Hrun & Hv').
  eexists h', _. split; [exact Hrun |]. split; [exact Hv' |].
  intros k. cbn [custom_content].
  rewrite <- key_count_policy. unfold key_count. by rewrite filter_app, length_app.
Qed.

Lemma key_count_after_render_witness :
  read_config (sample_heap [VTuple (VStr "getenv") (VStr "false")]) (VRef 1)
    = Some {| render_variables := ∅;
              custom_content := [VTuple (VStr "getenv") (VStr "false")] |} ∧
  ∃ h' v',
    htcondor_job_config ∅ sample_workflow (VRef 1) 0 [0]
      (sample_heap [VTuple (VStr "getenv") (VStr "false")]) = (Ok (VRef 1), h') ∧
    read_config h' (VRef 1) = Some v' ∧
    ∀ k, key_count k (custom_content v')
         = (key_count k [VTuple (VStr "getenv") (VStr "false")]
            + if policy_key k then 1 else 0)%nat.
Proof.
  assert (Hv : read_config (sample_heap [VTuple (VStr "getenv") (VStr "false")]) (VRef 1)
    = Some {| render_variables := ∅;
              custom_content := [VTuple (VStr "getenv") (VStr "false")] |})
    by (vm_compute; reflexivity).
  split; [exact Hv |].
  exact (key_count_after_render ∅ sample_workflow _ (VRef 1) 0 [0] _ Hv).
Defined.

(** ** Other configs in the heap *)

(** X7. What a call on one config does to another config of the heap: the
    other one sees [analysis_path] exactly when it shares the dict, and sees
    the three directives exactly when it shares the list; a config that shares
    neither is as it was. *)
Theorem effect_on_other_config environ self h c rv cc attrs d l
    c2 rv2 cc2 attrs2 d2 l2 job_num branches :
  is_config h c rv cc attrs d l →
  is_config h c2 rv2 cc2 attrs2 d2 l2 →
  ∃ h',
    htcondor_job_config environ self (VRef c) job_num branches h = (Ok (VRef c), h') ∧
    is_config h' c2 rv2 cc2 attrs2
      (if decide (rv2 = rv)
       then <["analysis_path" := os.getenv environ "ANALYSIS_PATH"]> d2 else d2)
      (if decide (cc2 = cc) then l2 ++ policy_directives else l2).
Proof.
  intros Hcfg Hcfg2.
  exists (rendered_heap environ h rv cc d l). split; [eapply htcondor_job_config_run; exact Hcfg |].
  destruct Hcfg as (Hc & Hrv & Hd & Hcc & Hl).
  destruct Hcfg2 as (Hc2 & Hrv2 & Hd2 & Hcc2 & Hl2).
  unfold rendered_heap. repeat split; try done.
  - rewrite !lookup_insert_ne; [done | congruence | congruence].
  - rewrite lookup_insert_ne by congruence.
    destruct (decide (rv2 = rv)) as [->|Hne].
    + rewrite lookup_insert_eq. congruence.
    + by rewrite lookup_insert_ne.
  - destruct (decide (cc2 = cc)) as [->|Hne].
    + rewrite lookup_insert_eq. congruence.
    + rewrite !lookup_insert_ne; [done | congruence | done].
Qed.

Lemma effect_on_other_config_witness :
  is_config sample_heap_shared 1 2 3 sample_attrs ∅ [] ∧
  is_config sample_heap_shared 4 5 3 shared_attrs ∅ [] ∧
  ∃ h',
    htcondor_job_config ∅ sample_workflow (VRef 1) 0 [0] sample_heap_shared
      = (Ok (VRef 1), h') ∧
    is_config h' 4 5 3 shared_attrs
      (if decide (5%positive = 2%positive)
       then <["analysis_path" := os.getenv ∅ "ANALYSIS_PATH"]> ∅ else ∅)
      (if decide (3%positive = 3%positive) then [] ++ policy_directives else []).
Proof.
  assert (H1 : is_config sample_heap_shared 1 2 3 sample_attrs ∅ [])
    by (repeat split; vm_compute; reflexivity).
  assert (H2 : is_config sample_heap_shared 4 5 3 shared_attrs ∅ [])
    by (repeat split; vm_compute; reflexivity).
  split; [exact H1 |]. split; [exact H2 |].
  exact (effect_on_other_config ∅ sample_workflow _ 1 2 3 _ _ _ 4 5 3 _ _ _ 0 [0] H1 H2).
Defined.

(** ** Joining paths *)

Lemma append_cons (c : ascii) (a b : string) : String c a +:+ b = String c (a +:+ b).
Proof. reflexivity. Qed.

Lemma append_inj_l (a x y : string) : a +:+ x = a +:+ y → x = y.
Proof.
  induction a as [|c a IH]; [done |]. rewrite !append_cons. intros [= Heq]. by apply IH.
Qed.

Lemma join_loop_app (p q : list pyval) : ∀ a,
  os.join_loop a (p ++ q)
  = match os.join_loop a p with
    | Ok x => os.join_loop x q
    | Raise e => Raise e
    end.
Proof.
  induction p as [|v p IH]; intros a; [reflexivity |].
  cbn [app os.join_loop]. destruct (os.fspath v); [apply IH | reflexivity].
Qed.

Lemma join_loop_result (p : list pyval) : ∀ a,
  (forallb is_str p = true ∧ ∃ x, os.join_loop a p = Ok x) ∨
  (forallb is_str p = false ∧ os.join_loop a p = Raise TypeError).
Proof.
  induction p as [|v p IH]; intros a; [left; split; [done | by eexists] |].
  cbn [forallb os.join_loop].
  destruct v as [|b| | |]; cbn [is_str os.fspath andb]; try (by right).
  apply IH.
Qed.

Lemma join_loop_strings (segments : list string) : ∀ a,
  ∃ p, os.join_loop a (VStr <$> segments) = Ok p ∧
       os.path_isabs p = existsb os.startswith_sep segments || os.path_isabs a.
Proof.
  induction segments as [|b rest IH]; intros a; [by exists a |].
  cbn [fmap list_fmap os.join_loop os.fspath existsb].
  destruct (IH (os.join_step a b)) as (p & Hp & Habs).
  exists p. split; [exact Hp |]. rewrite Habs, isabs_join_step.
  unfold os.path_isabs. by destruct (os.startswith_sep b), (existsb _ rest).
Qed.

Lemma join_loop_relative (segments : list string) : ∀ a,
  forallb relative_segment segments = true →
  ∃ suffix, os.join_loop a (VStr <$> segments) = Ok (a +:+ suffix).
Proof.
  induction segments as [|b rest IH]; intros a Hrel.
  - exists "". cbn. f_equal. clear. induction a as [|c a IHa]; [done |].
    rewrite append_cons. by rewrite <- IHa.
  - cbn [forallb] in Hrel. apply andb_prop in Hrel as [Hb Hrest].
    unfold relative_segment in Hb. apply negb_true_iff in Hb.
    cbn [fmap list_fmap os.join_loop os.fspath]. unfold os.join_step. rewrite Hb.
    destruct (IH (if os.is_empty a || os.endswith_sep a then a +:+ b else a +:+ os.sep +:+ b)
                Hrest) as (suffix & Hs).
    rewrite Hs. destruct (os.is_empty a || os.endswith_sep a).
    + exists (b +:+ suffix). by rewrite append_assoc.
    + exists (os.sep +:+ b +:+ suffix). by rewrite !append_assoc.
Qed.


(** X9. Segments can be given at once or joined on afterwards:
    [local_path] of [p] followed by [q] is [os.path.join] of [local_path] of
    [p] with [q], and fails where that fails. *)
Theorem local_path_app environ self (p q : list pyval) :
  local_path environ self (p ++ q)
  = match local_path environ self p with
    | Ok x => os.path_join (VStr x :: q)
    | Raise e => Raise e
    end.
Proof.
  unfold local_path, os.getenv.
  destruct (environ !! "ANALYSIS_DATA_PATH") as [d|]; [| reflexivity].
  cbn [app tuple2_items store_parts fst snd os.path_join os.fspath os.join_loop].
  apply join_loop_app.
Qed.

(** X10. A component that starts with the separator throws away all that
    stands before it: with an absolute version the data path and the class
    name are gone, with an absolute segment the version and the segments
    before it are gone as well. *)
Theorem absolute_component_resets environ self path d :
  environ !! "ANALYSIS_DATA_PATH" = Some d →
  (os.startswith_sep (version self) = true →
   local_path environ self path = os.path_join (VStr (version self) :: path)) ∧
  (∀ pre b post,
     path = pre ++ VStr b :: post → forallb is_str pre = true →
     os.startswith_sep b = true →
     local_path environ self path = os.path_join (VStr b :: post)).
Proof.
  intros He. unfold local_path, os.getenv. rewrite He.
  cbn [app tuple2_items store_parts fst snd os.path_join os.fspath os.join_loop].
  split.
  - intros Habs. unfold os.join_step at 1. by rewrite Habs.
  - intros pre b post -> Hpre Habs. rewrite join_loop_app.
    destruct (join_loop_result pre
                (os.join_step (os.join_step d (cls_name self)) (version self)))
      as [[_ [x ->]]|[Hf _]]; [| congruence].
    cbn [os.join_loop os.fspath]. unfold os.join_step at 1. by rewrite Habs.
Qed.

Lemma absolute_component_resets_witness :
  ({[ "ANALYSIS_DATA_PATH" := "/nfs/data" ]} : gmap string string) !! "ANALYSIS_DATA_PATH"
    = Some "/nfs/data" ∧
  local_path {[ "ANALYSIS_DATA_PATH" := "/nfs/data" ]} (task sample_workflow)
    [VStr "chars"; VStr "/tmp/x"; VStr "out.json"]
  = os.path_join [VStr "/tmp/x"; VStr "out.json"].
Proof.
  assert (He : ({[ "ANALYSIS_DATA_PATH" := "/nfs/data" ]} : gmap string string)
                 !! "ANALYSIS_DATA_PATH" = Some "/nfs/data") by (vm_compute; reflexivity).
  split; [exact He |].
  exact (proj2 (absolute_component_resets _ (task sample_workflow)
                  [VStr "chars"; VStr "/tmp/x"; VStr "out.json"] "/nfs/data" He)
           [VStr "chars"] "/tmp/x" [VStr "out.json"] eq_refl eq_refl eq_refl).
Defined.

(** X11. With the variable set, the path of string segments is absolute
    exactly when the data path, the class name, the version or one of the
    segments starts with the separator. *)
Theorem local_path_isabs environ self (segments : list string) d :
  environ !! "ANALYSIS_DATA_PATH" = Some d →
  ∃ p, local_path environ self (VStr <$> segments) = Ok p ∧
       os.path_isabs p
       = existsb os.startswith_sep (d :: cls_name self :: version self :: segments).
Proof.
  intros He. unfold local_path, os.getenv. rewrite He.
  change ([VStr d] ++ tuple2_items (store_parts self) ++ (VStr <$> segments))
    with (VStr d :: (VStr <$> (cls_name self :: version self :: segments))).
  cbn [os.path_join os.fspath].
  destruct (join_loop_strings (cls_name self :: version self :: segments) d)
    as (p & Hp & Habs).
  exists p. split; [exact Hp |]. rewrite Habs. cbn [existsb]. unfold os.path_isabs.
  by destruct (os.startswith_sep d), (os.startswith_sep (cls_name self)),
       (os.startswith_sep (version self)), (existsb os.startswith_sep segments).
Qed.

Lemma local_path_isabs_witness :
  ({[ "ANALYSIS_DATA_PATH" := "data" ]} : gmap string string) !! "ANALYSIS_DATA_PATH"
    = Some "data" ∧
  ∃ p, local_path {[ "ANALYSIS_DATA_PATH" := "data" ]} (task sample_workflow)
         (VStr <$> ["chars"; "out.json"]) = Ok p ∧
       os.path_isabs p
       = existsb os.startswith_sep ["data"; "CreateChars"; "v1"; "chars"; "out.json"].
Proof.
  assert (He : ({[ "ANALYSIS_DATA_PATH" := "data" ]} : gmap string string)
                 !! "ANALYSIS_DATA_PATH" = Some "data") by (vm_compute; reflexivity).
  split; [exact He |].
  exact (local_path_isabs _ (task sample_workflow) ["chars"; "out.json"] "data" He).
Defined.

(** ** Targets and directories *)

Lemma join_step_tail (p b : string) :
  os.is_empty b = false →
  os.is_empty (os.join_step p b) = false ∧
  os.endswith_sep (os.join_step p b) = os.endswith_sep b.
Proof.
  intros Hb. unfold os.join_step.
  destruct (os.startswith_sep b); [done |].
  destruct (os.is_empty p || os.endswith_sep p).
  - split; [by rewrite is_empty_append, Hb, andb_false_r |].
    by apply endswith_sep_append.
  - split; [by rewrite !is_empty_append, Hb, !andb_false_r |].
    rewrite endswith_sep_append by (by rewrite is_empty_append, Hb, andb_false_r).
    by apply endswith_sep_append.
Qed.

(** X12. The path of a local target begins with the path given to the
    output directory, as strings: with segments that do not start with the
    separator it is that path with something behind it, and with a version
    and segments that are plain it is that path followed by each segment
    behind a separator. Nothing is normalised: a segment [..] stays as it
    is. *)
Theorem local_target_extends_output_directory environ (w : HTCondorWorkflow)
    (segments : list string) d :
  environ !! "ANALYSIS_DATA_PATH" = Some d →
  ∃ dir,
    htcondor_output_directory environ w = Ok {| target_path := dir |} ∧
    (forallb relative_segment segments = true →
     ∃ suffix, local_target environ (task w) (VStr <$> segments)
               = Ok {| file_target_path := dir +:+ suffix |}) ∧
    (os.is_empty (version (task w)) = false →
     os.endswith_sep (version (task w)) = false →
     forallb plain_segment segments = true →
     local_target environ (task w) (VStr <$> segments)
     = Ok {| file_target_path := dir +:+ slashed segments |}).
Proof.
  intros He. unfold htcondor_output_directory, local_target.
  rewrite (local_path_no_segments environ (task w) d He).
  eexists. split; [reflexivity |].
  unfold local_path, os.getenv. rewrite He.
  cbn [app tuple2_items store_parts fst snd os.path_join os.fspath os.join_loop].
  split.
  - intros Hrel.
    destruct (join_loop_relative segments
                (os.join_step (os.join_step d (cls_name (task w))) (version (task w))) Hrel)
      as (suffix & ->).
    by exists suffix.
  - intros Hne Hend Hplain.
    destruct (join_step_tail (os.join_step d (cls_name (task w))) (version (task w)) Hne)
      as [Hne' Hend'].
    rewrite join_loop_plain; [reflexivity | exact Hne' | congruence | exact Hplain].
Qed.

Lemma local_target_extends_output_directory_witness :
  ({[ "ANALYSIS_DATA_PATH" := "/nfs/data" ]} : gmap string string) !! "ANALYSIS_DATA_PATH"
    = Some "/nfs/data" ∧
  forallb plain_segment [".."; "out.json"] = true ∧
  htcondor_output_directory {[ "ANALYSIS_DATA_PATH" := "/nfs/data" ]} sample_workflow
    = Ok {| target_path := "/nfs/data/CreateChars/v1" |} ∧
  local_target {[ "ANALYSIS_DATA_PATH" := "/nfs/data" ]} (task sample_workflow)
    (VStr <$> [".."; "out.json"])
    = Ok {| file_target_path := "/nfs/data/CreateChars/v1/../out.json" |}.
Proof.
  assert (He : ({[ "ANALYSIS_DATA_PATH" := "/nfs/data" ]} : gmap string string)
                 !! "ANALYSIS_DATA_PATH" = Some "/nfs/data") by (vm_compute; reflexivity).
  assert (Hplain : forallb plain_segment [".."; "out.json"] = true) by reflexivity.
  split; [exact He |]. split; [exact Hplain |].
  destruct (local_target_extends_output_directory _ sample_workflow [".."; "out.json"]
              "/nfs/data" He) as (dir & Hdir & _ & Hexact).
  assert (Hd : dir = "/nfs/data/CreateChars/v1").
  { change (htcondor_output_directory {[ "ANALYSIS_DATA_PATH" := "/nfs/data" ]}
              sample_workflow)
      with (@Ok LocalDirectoryTarget {| target_path := "/nfs/data/CreateChars/v1" |})
      in Hdir.
    by injection Hdir. }
  subst dir. split; [exact Hdir |]. exact (Hexact eq_refl eq_refl Hplain).
Defined.

Lemma no_sep_relative (s : string) : no_sep s = true → os.startswith_sep s = false.
Proof.
  destruct s as [|c s]; [done |]. cbn [no_sep]. intros Hs.
  apply andb_prop in Hs as [Hc _]. apply negb_true_iff in Hc.
  unfold os.startswith_sep.
  destruct (Ascii.eqb_spec c "/"%char) as [->|Hne]; [discriminate |].
  destruct c as [[] [] [] [] [] [] [] []]; try reflexivity. by destruct Hne.
Qed.

Lemma no_sep_endswith (s : string) : no_sep s = true → os.endswith_sep s = false.
Proof.
  induction s as [|c s IH]; [done |]. cbn [no_sep]. intros Hs.
  apply andb_prop in Hs as [Hc Hs]. apply negb_true_iff in Hc.
  destruct s as [|c' s']; [exact Hc | exact (IH Hs)].
Qed.

(** A string is cut at its first separator in one way only. *)
Lemma cut_at_sep (c1 : string) : ∀ c2 x y,
  no_sep c1 = true → no_sep c2 = true →
  c1 +:+ String "/"%char x = c2 +:+ String "/"%char y → c1 = c2 ∧ x = y.
Proof.
  induction c1 as [|a c1 IH]; intros [|b c2] x y H1 H2 Heq.
  - by injection Heq as ->.
  - rewrite append_cons in Heq. injection Heq as <- _.
    cbn [no_sep] in H2. by rewrite Ascii.eqb_refl in H2.
  - rewrite append_cons in Heq. injection Heq as -> _.
    cbn [no_sep] in H1. by rewrite Ascii.eqb_refl in H1.
  - rewrite !append_cons in Heq. injection Heq as -> Heq.
    cbn [no_sep] in H1, H2.
    apply andb_prop in H1 as [_ H1]. apply andb_prop in H2 as [_ H2].
    destruct (IH c2 x y H1 H2 Heq) as [-> ->]. done.
Qed.

(** The directory of a task whose class name holds no separator. *)
Lemma output_directory_shape environ (w : HTCondorWorkflow) d :
  environ !! "ANALYSIS_DATA_PATH" = Some d →
  os.is_empty (cls_name (task w)) = false →
  no_sep (cls_name (task w)) = true →
  os.startswith_sep (version (task w)) = false →
  htcondor_output_directory environ w
  = Ok {| target_path :=
            d +:+ (if os.is_empty d || os.endswith_sep d then "" else os.sep)
              +:+ cls_name (task w) +:+ String "/"%char (version (task w)) |}.
Proof.
  intros He Hne Hns Hv. unfold htcondor_output_directory.
  rewrite (local_path_no_segments environ (task w) d He). do 2 f_equal.
  unfold os.join_step. rewrite (no_sep_relative _ Hns), Hv.
  assert (Hmid : (if os.is_empty d || os.endswith_sep d
                  then d +:+ cls_name (task w)
                  else d +:+ os.sep +:+ cls_name (task w))
                 = d +:+ (if os.is_empty d || os.endswith_sep d then "" else os.sep)
                     +:+ cls_name (task w)).
  { by destruct (os.is_empty d || os.endswith_sep d). }
  rewrite Hmid.
  assert (Hnonempty : os.is_empty (d +:+ (if os.is_empty d || os.endswith_sep d
                                          then "" else os.sep)
                                     +:+ cls_name (task w)) = false).
  { by rewrite !is_empty_append, Hne, !andb_false_r. }
  assert (Hend : os.endswith_sep (d +:+ (if os.is_empty d || os.endswith_sep d
                                         then "" else os.sep)
                                    +:+ cls_name (task w)) = false).
  { rewrite endswith_sep_append.
    - rewrite endswith_sep_append by exact Hne. by apply no_sep_endswith.
    - by rewrite is_empty_append, Hne, andb_false_r. }
  rewrite Hnonempty, Hend. cbn [orb]. by rewrite !append_assoc.
Qed.

(** X13. The path given to the output directory tells the class and the
    version: under one data path, with class names that are not empty and
    hold no separator and with versions that do not start with one, tasks
    that differ in class name or in version get different path strings.
    Whether two different strings name one directory is another matter: the
    join normalises nothing. *)
Theorem output_directory_paths_distinct environ (w1 w2 : HTCondorWorkflow) d :
  environ !! "ANALYSIS_DATA_PATH" = Some d →
  os.is_empty (cls_name (task w1)) = false → no_sep (cls_name (task w1)) = true →
  os.is_empty (cls_name (task w2)) = false → no_sep (cls_name (task w2)) = true →
  os.startswith_sep (version (task w1)) = false →
  os.startswith_sep (version (task w2)) = false →
  cls_name (task w1) ≠ cls_name (task w2) ∨ version (task w1) ≠ version (task w2) →
  htcondor_output_directory environ w1 ≠ htcondor_output_directory environ w2.
Proof.
  intros He Hne1 Hns1 Hne2 Hns2 Hv1 Hv2 Hdiff.
  rewrite (output_directory_shape environ w1 d He Hne1 Hns1 Hv1).
  rewrite (output_directory_shape environ w2 d He Hne2 Hns2 Hv2).
  intros [= Heq]. apply append_inj_l, append_inj_l in Heq.
  apply cut_at_sep in Heq as [Hc Hv]; [| done | done].
  by destruct Hdiff.
Qed.

Lemma output_directory_paths_distinct_witness :
  ({[ "ANALYSIS_DATA_PATH" := "/nfs/data" ]} : gmap string string) !! "ANALYSIS_DATA_PATH"
    = Some "/nfs/data" ∧
  htcondor_output_directory {[ "ANALYSIS_DATA_PATH" := "/nfs/data" ]} sample_workflow
  ≠ htcondor_output_directory {[ "ANALYSIS_DATA_PATH" := "/nfs/data" ]}
      {| task := {| cls_name := "CreateChars"; version := "v2" |}; max_runtime := 3 |}.
Proof.
  assert (He : ({[ "ANALYSIS_DATA_PATH" := "/nfs/data" ]} : gmap string string)
                 !! "ANALYSIS_DATA_PATH" = Some "/nfs/data") by (vm_compute; reflexivity).
  assert (Hdiff : cls_name (task sample_workflow) ≠ "CreateChars"
                  ∨ version (task sample_workflow) ≠ "v2") by (right; discriminate).
  split; [exact He |].
  exact (output_directory_paths_distinct {[ "ANALYSIS_DATA_PATH" := "/nfs/data" ]}
           sample_workflow
           {| task := {| cls_name := "CreateChars"; version := "v2" |}; max_runtime := 3 |}
           "/nfs/data" He eq_refl eq_refl eq_refl eq_refl eq_refl eq_refl Hdiff).
Defined.
